(** * Scheduling helper: free-slot finder, duration filter, slot check

    A shallow embedding of [src/helpers.py], [src/shemas.py] and the error
    boundary used by [src/services.py], with the properties of the
    specification stated over it.

    Layout: values of the [datetime] module, the schemas, exceptions and
    the insertion-ordered dictionary; the helpers as functions on values;
    the same free-slot finder over an object store (to speak about
    mutation); then the theorems. *)

From Stdlib Require Import ZArith String Ascii List Lia Bool.
From stdpp Require Import base list.
Import ListNotations.
Local Open Scope Z_scope.

(** ** Values of the [datetime] module *)

(** A naive [datetime.time] is a number of microseconds since midnight;
    [==], [<], [<=] on times are the comparisons of these numbers. *)
Definition time := Z.

(** A [datetime.timedelta], in microseconds. *)
Definition timedelta := Z.

(** [time(h, m)] and [timedelta(hours=h, minutes=m)]. *)
Definition hm (h m : Z) : Z := (h * 60 + m) * 60 * 1000000.

(** [timedelta.total_seconds() <= 0]: the sign of the microsecond count. *)
Definition total_seconds_nonpos (d : timedelta) : bool := d <=? 0.

Record date := mk_date { date_year : Z; date_month : Z; date_day : Z }.

(** ** Schemas ([src/shemas.py]) *)

Record Slot := mk_Slot { Slot_date : date; Slot_start : time; Slot_end : time }.

Record Day := mk_Day
  { Day_date : date; Day_start : time; Day_end : time; Day_id : Z }.

Record TimeSlot := mk_TimeSlot
  { day_id : Z; TimeSlot_start : time; TimeSlot_end : time }.

(** [check_time_boundaries] reads [.start] and [.end] of a [Day] or of a
    [TimeSlot]: the two classes that pass its [isinstance] test. *)
Class DayOrTimeSlot (A : Type) := { start_of : A -> time; end_of : A -> time }.

#[export] Instance Day_bounds : DayOrTimeSlot Day :=
  {| start_of := Day_start; end_of := Day_end |}.
#[export] Instance TimeSlot_bounds : DayOrTimeSlot TimeSlot :=
  {| start_of := TimeSlot_start; end_of := TimeSlot_end |}.

(** [day.start = t] on a [Day] object. *)
Definition set_start (d : Day) (t : time) : Day :=
  {| Day_date := Day_date d; Day_start := t; Day_end := Day_end d;
     Day_id := Day_id d |}.

(** ** Exceptions *)

Inductive exn_class :=
| TypeError | ValueError | KeyError | AttributeError | ZeroDivisionError
| RequestException | ValidationError
| KeyboardInterrupt | SystemExit | GeneratorExit.

(** [isinstance(e, Exception)]: the last three classes derive from
    [BaseException] only. *)
Definition is_Exception (c : exn_class) : bool :=
  match c with
  | KeyboardInterrupt | SystemExit | GeneratorExit => false
  | _ => true
  end.

(** An exception object: its class and [str(e)]. *)
Record exn := mk_exn { exn_cls : exn_class; exn_str : string }.

Inductive result (A : Type) :=
| Ok (a : A)
| Raise (e : exn).
Arguments Ok {A} a.
Arguments Raise {A} e.

Definition bind {A B} (m : result A) (f : A -> result B) : result B :=
  match m with
  | Ok a => f a
  | Raise e => Raise e
  end.

Notation "x <- m ;; k" := (bind m (fun x => k))
  (at level 100, m at next level, right associativity).

(** ** Insertion-ordered dictionaries *)

(** A Python [dict] with [str] keys: the entries in insertion order.  The
    keys of a dictionary are pairwise different ([dict_ok]). *)
Definition dict (V : Type) := list (string * V).

Definition keys {V} (d : dict V) : list string := map fst d.

Definition dict_ok {V} (d : dict V) : Prop := List.NoDup (keys d).

(** [d.get(k)] *)
Fixpoint dict_get {V} (k : string) (d : dict V) : option V :=
  match d with
  | [] => None
  | (k', v) :: rest => if String.eqb k k' then Some v else dict_get k rest
  end.

(** [d[k] = v]: a present key keeps its place, a new key goes last. *)
Fixpoint dict_set {V} (k : string) (v : V) (d : dict V) : dict V :=
  match d with
  | [] => [(k, v)]
  | (k', v') :: rest =>
      if String.eqb k k' then (k, v) :: rest else (k', v') :: dict_set k v rest
  end.

(** [ScheduleType = Dict[str, Tuple[Day, List[TimeSlot]]]] *)
Definition ScheduleType := dict (Day * list TimeSlot).

(** ** Helpers ([src/helpers.py]) on values *)

(** [time_diff]: both times are put on the same date and subtracted. *)
Definition time_diff (time_1 time_2 : time) : timedelta := time_1 - time_2.

(** [check_time_boundaries(slot, other)] *)
Definition check_time_boundaries {A} `{DayOrTimeSlot A}
    (slot : Slot) (other : A) : bool :=
  (start_of other <=? Slot_start slot) && (Slot_end slot <=? end_of other).

(** [can_schedule_slot(slot, free_slots)] *)
Definition can_schedule_slot (slot : Slot) (free_slots : list TimeSlot) : bool :=
  match free_slots with
  | [] => false
  | _ => existsb (fun free_slot => check_time_boundaries slot free_slot) free_slots
  end.

(** One turn of the loop of [free_slots_at_date] on the copied [day] and the
    list [free_slots]; a slot that starts before [day.start] changes
    nothing. *)
Definition free_slots_step (st : Day * list TimeSlot) (slot : TimeSlot)
    : Day * list TimeSlot :=
  let '(day, free_slots) := st in
  if Day_start day =? TimeSlot_start slot then
    (set_start day (TimeSlot_end slot), free_slots)
  else if Day_start day <? TimeSlot_start slot then
    (set_start day (TimeSlot_end slot),
     free_slots ++ [mk_TimeSlot (day_id slot) (Day_start day) (TimeSlot_start slot)])
  else (day, free_slots).

(** What follows the loop: the gap up to [day.end]. *)
Definition free_slots_finish (st : Day * list TimeSlot) : list TimeSlot :=
  let '(day, free_slots) := st in
  if negb (Day_start day =? Day_end day) then
    free_slots ++ [mk_TimeSlot (Day_id day) (Day_start day) (Day_end day)]
  else free_slots.

Section Helpers.

(** The two calls into [datetime] that turn a date into a key and back:
    [d.strftime("%Y-%m-%d")] and [datetime.strptime(key, "%Y-%m-%d").date()],
    which returns a date or raises.  Nothing is assumed of them. *)
Variable strftime : date -> string.
Variable strptime : string -> result date.

(** [free_slots_at_date(schedule, date_key)].  The arguments have the
    types its two guards test for. *)
Definition free_slots_at_date (schedule : ScheduleType) (date_key : date)
    : list TimeSlot :=
  let str_date := strftime date_key in
  match dict_get str_date schedule with
  | None => []
  | Some (d, busy) => free_slots_finish (fold_left free_slots_step busy (d, []))
  end.

(** The filter of [find_suitable_slot]. *)
Definition fits (duration : timedelta) (x : TimeSlot) : bool :=
  duration <=? time_diff (TimeSlot_end x) (TimeSlot_start x).

(** The body of the loop [for key in schedule] of [find_suitable_slot]. *)
Definition find_suitable_step (schedule : ScheduleType) (duration : timedelta)
    (suitable_schedule : ScheduleType) (key : string) : result ScheduleType :=
  _date <- strptime key ;;
  let free_slots := free_slots_at_date schedule _date in
  let suitable_slots := List.filter (fits duration) free_slots in
  match suitable_slots with
  | [] => Ok suitable_schedule
  | _ =>
      match dict_get key schedule with
      | Some (d, _) => Ok (dict_set key (d, suitable_slots) suitable_schedule)
      | None => Raise (mk_exn KeyError key)
      end
  end.

Fixpoint find_suitable_loop (schedule : ScheduleType) (duration : timedelta)
    (ks : list string) (suitable_schedule : ScheduleType) : result ScheduleType :=
  match ks with
  | [] => Ok suitable_schedule
  | key :: rest =>
      acc <- find_suitable_step schedule duration suitable_schedule key ;;
      find_suitable_loop schedule duration rest acc
  end.

(** [find_suitable_slot(schedule, duration)] on a [dict] and a
    [timedelta].  The closing [Schedule.validate_python] returns a
    dictionary equal to the one it is given. *)
Definition find_suitable_slot (schedule : ScheduleType) (duration : timedelta)
    : result ScheduleType :=
  if total_seconds_nonpos duration then
    Raise (mk_exn ValueError "Invalid duration. Must be a positive timedelta.")
  else
    find_suitable_loop schedule duration (keys schedule) [].

(** An entry of the result: the key parses to a date and the intervals are
    the free slots of that date that pass the filter, at least one. *)
Definition kept_entry (schedule : ScheduleType) (duration : timedelta)
    (e : string * (Day * list TimeSlot)) : Prop :=
  exists _date,
    strptime (fst e) = Ok _date
    /\ snd (snd e) = List.filter (fits duration)
                       (free_slots_at_date schedule _date)
    /\ snd (snd e) <> [].

End Helpers.

(** ** The error boundary ([exception_handler]) *)

(** What the process has written with [print], oldest line first. *)
Definition stdout := list string.

(** A function that prints and returns or raises. *)
Definition IO (A : Type) := stdout -> result A * stdout.

(** [exception_handler(func)]: the value of [func] comes back as it is
    ([Some v]); an exception that is an instance of [Exception] is printed
    and the wrapper returns [None]; any other exception is not matched by
    the [except] clause and leaves the wrapper. *)
Definition exception_handler {A B} (func : A -> IO B) : A -> IO (option B) :=
  fun args out =>
    match func args out with
    | (Ok v, out') => (Ok (Some v), out')
    | (Raise e, out') =>
        if is_Exception (exn_cls e) then
          (Ok None, out' ++ [("ERROR: " ++ exn_str e)%string])
        else (Raise e, out')
    end.

(** ** An instance of the two [datetime] calls

    The behaviour of [strftime] and [strptime] with ["%Y-%m-%d"] on
    zero-padded keys of four-digit years, the form of the feed and of the
    tests.  It serves to run the helpers on examples; no theorem depends on
    it. *)

Definition digit_of (n : Z) : string :=
  String (Ascii.ascii_of_nat (48 + Z.to_nat (n mod 10))) EmptyString.

Definition iso_strftime (d : date) : string :=
  (digit_of (date_year d / 1000) ++ digit_of (date_year d / 100)
   ++ digit_of (date_year d / 10) ++ digit_of (date_year d) ++ "-"
   ++ digit_of (date_month d / 10) ++ digit_of (date_month d) ++ "-"
   ++ digit_of (date_day d / 10) ++ digit_of (date_day d))%string.

Definition value_of_digit (c : Ascii.ascii) : option Z :=
  let n := Z.of_nat (Ascii.nat_of_ascii c) in
  if (48 <=? n) && (n <=? 57) then Some (n - 48) else None.

Fixpoint number_of (cs : list Ascii.ascii) (acc : Z) : option Z :=
  match cs with
  | [] => Some acc
  | c :: rest =>
      match value_of_digit c with
      | Some v => number_of rest (acc * 10 + v)
      | None => None
      end
  end.

Definition is_leap (y : Z) : bool :=
  ((y mod 4 =? 0) && negb (y mod 100 =? 0)) || (y mod 400 =? 0).

Definition days_in_month (y m : Z) : Z :=
  if m =? 2 then (if is_leap y then 29 else 28)
  else if (m =? 4) || (m =? 6) || (m =? 9) || (m =? 11) then 30 else 31.

Definition is_dash (c : Ascii.ascii) : bool := Ascii.eqb c "-"%char.

Definition quoted (s : string) : string := ("'" ++ s ++ "'")%string.

Definition no_match (s : string) : exn :=
  mk_exn ValueError
    ("time data " ++ quoted s ++ " does not match format " ++ quoted "%Y-%m-%d")%string.

(** Accepts the zero-padded form [YYYY-MM-DD] of a date that exists, as
    [strptime] does; the messages of the rejections are indicative.
    (Python also accepts months and days of one digit; this instance does
    not, such keys are outside of it.) *)
Definition iso_strptime (s : string) : result date :=
  match list_ascii_of_string s with
  | [y1; y2; y3; y4; s1; m1; m2; s2; d1; d2] =>
      match number_of [y1; y2; y3; y4] 0, number_of [m1; m2] 0,
            number_of [d1; d2] 0 with
      | Some y, Some m, Some d =>
          if is_dash s1 && is_dash s2 && (1 <=? m) && (m <=? 12)
             && (1 <=? d) && (d <=? 31)
          then
            if y =? 0 then Raise (mk_exn ValueError "year 0 is out of range")
            else if d <=? days_in_month y m then Ok (mk_date y m d)
            else Raise (mk_exn ValueError "day is out of range for month")
          else Raise (no_match s)
      | _, _, _ => Raise (no_match s)
      end
  | _ => Raise (no_match s)
  end.

(** ** Vocabulary of the properties *)

(** The instant [t] lies in [[start, end)] of [s]. *)
Definition at_instant (t : time) (s : TimeSlot) : bool :=
  (TimeSlot_start s <=? t) && (t <? TimeSlot_end s).

(** How many intervals of [l] hold the instant [t]. *)
Definition covering (t : time) (l : list TimeSlot) : nat :=
  length (List.filter (at_instant t) l).

(** Two intervals share an instant. *)
Definition overlap (a b : TimeSlot) : Prop :=
  exists t, at_instant t a = true /\ at_instant t b = true.

(** The precondition of the free-slot finder on the busy list of a day:
    each interval is a [[start, end)] with [start < end] inside the window
    of the day, the list is sorted by start, and no two of its intervals
    overlap. *)
Record busy_ok (d : Day) (busy : list TimeSlot) : Prop := mk_busy_ok
  { busy_proper : Forall (fun s => TimeSlot_start s < TimeSlot_end s) busy;
    busy_within : Forall (fun s => Day_start d <= TimeSlot_start s
                                   /\ TimeSlot_end s <= Day_end d) busy;
    busy_sorted : ForallOrdPairs (fun a b => TimeSlot_start a <= TimeSlot_start b) busy;
    busy_disjoint : ForallOrdPairs (fun a b => ~ overlap a b) busy }.

(** The busy list covers the window from [cur] to [stop] without a hole:
    the first interval starts at [cur], each next one where the one before
    ends, and the last one ends at [stop]. *)
Fixpoint fully_booked (cur stop : time) (busy : list TimeSlot) : Prop :=
  match busy with
  | [] => cur = stop
  | s :: rest => TimeSlot_start s = cur /\ fully_booked (TimeSlot_end s) stop rest
  end.

(** The loop of [free_slots_at_date] and what follows it, written by
    recursion on the busy list, with the cursor [cur] for [day.start]; the
    proofs go through it ([free_slots_walk]). *)
Fixpoint walk (id : Z) (cur stop : time) (busy : list TimeSlot) : list TimeSlot :=
  match busy with
  | [] => if negb (cur =? stop) then [mk_TimeSlot id cur stop] else []
  | s :: rest =>
      if cur =? TimeSlot_start s then walk id (TimeSlot_end s) stop rest
      else if cur <? TimeSlot_start s then
        mk_TimeSlot (day_id s) cur (TimeSlot_start s)
          :: walk id (TimeSlot_end s) stop rest
      else walk id cur stop rest
  end.

(** What the precondition [busy_ok] gives the loop: every busy interval
    starts at or after the cursor left by the one before it. *)
Fixpoint lined_up (cur : time) (busy : list TimeSlot) : Prop :=
  match busy with
  | [] => True
  | s :: rest =>
      cur <= TimeSlot_start s /\ TimeSlot_start s < TimeSlot_end s
      /\ lined_up (TimeSlot_end s) rest
  end.

(** ** The free-slot finder over an object store

    [free_slots_at_date] copies the [Day] of the schedule and assigns to
    the copy.  To state what it leaves untouched, the objects live in a
    store: the schedule is a reference to a [dict] whose values refer to a
    [Day] and to a [list] of references to [TimeSlot] objects. *)

Module Store.

Abbreviation loc := nat (only parsing).

Inductive object :=
| ODay (d : Day)
| OTimeSlot (s : TimeSlot)
| OList (items : list loc)
| ODict (entries : dict (loc * loc)).

(** The object at reference [l] is the [l]-th one; a new object goes to
    the end. *)
Abbreviation heap := (list object) (only parsing).

(** A computation on the store that returns or raises. *)
Definition M (A : Type) := heap -> result A * heap.

#[export] Instance M_ret : MRet M := fun A a h => (Ok a, h).

#[export] Instance M_bind : MBind M := fun A B f m h =>
  match m h with
  | (Ok a, h') => f a h'
  | (Raise e, h') => (Raise e, h')
  end.

Definition raise {A} (e : exn) : M A := fun h => (Raise e, h).

Definition alloc (o : object) : M loc := fun h => (Ok (length h), h ++ [o]).

Definition write (l : loc) (o : object) : M unit :=
  fun h => (Ok tt, <[l := o]> h).

(** Reading the store. *)
Definition lookup_day (h : heap) (l : loc) : option Day :=
  match h !! l with Some (ODay d) => Some d | _ => None end.

Definition lookup_slot (h : heap) (l : loc) : option TimeSlot :=
  match h !! l with Some (OTimeSlot s) => Some s | _ => None end.

Definition lookup_items (h : heap) (l : loc) : option (list loc) :=
  match h !! l with Some (OList items) => Some items | _ => None end.

Definition lookup_entries (h : heap) (l : loc) : option (dict (loc * loc)) :=
  match h !! l with Some (ODict entries) => Some entries | _ => None end.

(** The value of a list of time slots and of a schedule in the store:
    what [==] compares. *)
Definition lookup_slots (h : heap) (l : loc) : option (list TimeSlot) :=
  items ← lookup_items h l; mapM (lookup_slot h) items.

Definition lookup_entry (h : heap) (e : string * (loc * loc))
    : option (string * (Day * list TimeSlot)) :=
  d ← lookup_day h (fst (snd e));
  busy ← lookup_slots h (snd (snd e));
  Some (fst e, (d, busy)).

Definition lookup_schedule (h : heap) (l : loc) : option ScheduleType :=
  entries ← lookup_entries h l; mapM (lookup_entry h) entries.

Definition attribute_error : exn :=
  mk_exn AttributeError "object has no such attribute".

Definition read {A} (get : heap -> loc -> option A) (l : loc) : M A :=
  fun h => match get h l with
           | Some a => (Ok a, h)
           | None => (Raise attribute_error, h)
           end.

(** [Schedule.validate_python(schedule)], its result dropped: passes when
    the object is a dictionary of pairs of a [Day] and a list of
    [TimeSlot]s. *)
Definition validate_python (schedule : loc) : M unit :=
  fun h => match lookup_schedule h schedule with
           | Some _ => (Ok tt, h)
           | None => (Raise (mk_exn ValidationError "validation error for dict"), h)
           end.

(** [l.append(x)] *)
Definition append (l x : loc) : M unit :=
  items ← read lookup_items l; write l (OList (items ++ [x])).

(** [day.start = t] *)
Definition assign_start (day : loc) (t : time) : M unit :=
  d ← read lookup_day day; write day (ODay (set_start d t)).

(** [for x in items: body(x)] *)
Fixpoint for_each (items : list loc) (body : loc -> M unit) : M unit :=
  match items with
  | [] => mret tt
  | x :: rest => body x ;; for_each rest body
  end.

(** The body of the loop of [free_slots_at_date]. *)
Definition free_slots_body (day free_slots : loc) (slot : loc) : M unit :=
  s ← read lookup_slot slot;
  d ← read lookup_day day;
  if Day_start d =? TimeSlot_start s then
    assign_start day (TimeSlot_end s)
  else if Day_start d <? TimeSlot_start s then
    new ← alloc (OTimeSlot (mk_TimeSlot (day_id s) (Day_start d) (TimeSlot_start s)));
    append free_slots new ;;
    assign_start day (TimeSlot_end s)
  else mret tt.

Section Finder.

Variable strftime : date -> string.

(** [free_slots_at_date(schedule, date_key)] on references.  The list
    under iteration is read when the loop starts; the loop writes to
    [day] and [free_slots] only, both made by this call. *)
Definition free_slots_at_date (schedule : loc) (date_key : date) : M loc :=
  validate_python schedule ;;
  let str_date := strftime date_key in
  entries ← read lookup_entries schedule;
  match dict_get str_date entries with
  | None => alloc (OList [])
  | Some (day0, busy) =>
      d0 ← read lookup_day day0;
      day ← alloc (ODay d0);
      free_slots ← alloc (OList []);
      items ← read lookup_items busy;
      for_each items (free_slots_body day free_slots) ;;
      d ← read lookup_day day;
      (if negb (Day_start d =? Day_end d) then
         new ← alloc (OTimeSlot (mk_TimeSlot (Day_id d) (Day_start d) (Day_end d)));
         append free_slots new
       else mret tt) ;;
      mret free_slots
  end.

End Finder.

(** What a caller sees of a call: the time slots of the returned list, or
    the exception. *)
Definition outcome (p : result loc * heap) : option (list TimeSlot) + exn :=
  match fst p with
  | Ok l => inl (lookup_slots (snd p) l)
  | Raise e => inr e
  end.

(** The store while the loop runs: the store of the caller, then the copy
    of the day, the list [free_slots] and the time slots made so far. *)
Definition during (h0 : heap) (d : Day) (acc : list TimeSlot) : heap :=
  h0 ++ ODay d :: OList (seq (S (S (length h0))) (length acc))
     :: map OTimeSlot acc.

End Store.

(** ** The schedule of the test suite ([tests/conftest.py])

    The two days of [formatted_schedule], and a third day booked from its
    start to its end by two intervals that touch. *)

Definition day_1 : Day := mk_Day (mk_date 2024 10 10) (hm 9 0) (hm 18 0) 1.
Definition day_2 : Day := mk_Day (mk_date 2024 10 11) (hm 8 0) (hm 17 0) 2.
Definition day_3 : Day := mk_Day (mk_date 2024 10 12) (hm 9 0) (hm 18 0) 3.
Definition day_4 : Day := mk_Day (mk_date 2024 10 13) (hm 9 0) (hm 18 0) 4.

Definition busy_1 : list TimeSlot := [mk_TimeSlot 1 (hm 11 0) (hm 12 0)].
Definition busy_2 : list TimeSlot := [mk_TimeSlot 2 (hm 9 30) (hm 16 0)].
Definition busy_3 : list TimeSlot :=
  [mk_TimeSlot 3 (hm 9 0) (hm 12 0); mk_TimeSlot 3 (hm 12 0) (hm 18 0)].

Definition formatted_schedule : ScheduleType :=
  [("2024-10-10"%string, (day_1, busy_1)); ("2024-10-11"%string, (day_2, busy_2))].

Definition booked_schedule : ScheduleType :=
  [("2024-10-12"%string, (day_3, busy_3)); ("2024-10-13"%string, (day_4, []))].

(** [formatted_schedule] as objects: the dictionary is object 6. *)
Definition formatted_store : list Store.object :=
  [Store.ODay day_1; Store.OTimeSlot (mk_TimeSlot 1 (hm 11 0) (hm 12 0));
   Store.OList [1%nat];
   Store.ODay day_2; Store.OTimeSlot (mk_TimeSlot 2 (hm 9 30) (hm 16 0));
   Store.OList [4%nat];
   Store.ODict [("2024-10-10"%string, (0%nat, 2%nat));
                ("2024-10-11"%string, (3%nat, 5%nat))]].

(** ** The feed and [format_data] ([src/helpers.py]) *)

(** [RawTimeSlot] adds [id] to the fields of [TimeSlot]. *)
Record RawTimeSlot := mk_RawTimeSlot
  { RawTimeSlot_id : Z; RawTimeSlot_day_id : Z;
    RawTimeSlot_start : time; RawTimeSlot_end : time }.

Record RawTimeData := mk_RawTimeData
  { days : list Day; timeslots : list RawTimeSlot }.

(** A [RawTimeSlot] is a [TimeSlot]: [TimeSlotList.validate_python] keeps
    the objects, and the schedule reads them through the fields of
    [TimeSlot]. *)
Definition as_TimeSlot (x : RawTimeSlot) : TimeSlot :=
  mk_TimeSlot (RawTimeSlot_day_id x) (RawTimeSlot_start x) (RawTimeSlot_end x).

(** [a <= b] on [datetime.date]: by year, then month, then day. *)
Definition date_leb (a b : date) : bool :=
  (date_year a <? date_year b)
  || ((date_year a =? date_year b)
      && ((date_month a <? date_month b)
          || ((date_month a =? date_month b) && (date_day a <=? date_day b)))).

(** [sorted(l, key=key)]: the one list that holds the elements of [l] in
    ascending order of their keys, elements of equal keys in the order they
    have in [l]. *)
Fixpoint insert_by {A K} (leb : K -> K -> bool) (key : A -> K) (x : A)
    (l : list A) : list A :=
  match l with
  | [] => [x]
  | y :: rest =>
      if leb (key x) (key y) then x :: y :: rest
      else y :: insert_by leb key x rest
  end.

Fixpoint sorted_by {A K} (leb : K -> K -> bool) (key : A -> K) (l : list A)
    : list A :=
  match l with
  | [] => []
  | x :: rest => insert_by leb key x (sorted_by leb key rest)
  end.

Section Format_data.

Variable strftime : date -> string.

(** The time slots of the feed whose [day_id] is the [id] of the day, in the
    order of the feed. *)
Definition feed_slots_of_day (raw_data : RawTimeData) (day : Day) : list TimeSlot :=
  map as_TimeSlot
      (List.filter (fun x => RawTimeSlot_day_id x =? Day_id day) (timeslots raw_data)).

(** The time slots of a day of the feed, as [format_data] lists them:
    those whose [day_id] is the [id] of the day, sorted by [start]. *)
Definition slots_of_day (raw_data : RawTimeData) (day : Day) : list TimeSlot :=
  let timeslots :=
    List.filter (fun x => RawTimeSlot_day_id x =? Day_id day) (timeslots raw_data) in
  let sorted_timeslots := sorted_by Z.leb RawTimeSlot_start timeslots in
  map as_TimeSlot sorted_timeslots.

(** The body of the loop [for day in sorted_days]. *)
Definition format_day (raw_data : RawTimeData) (data : ScheduleType) (day : Day)
    : ScheduleType :=
  let date := strftime (Day_date day) in
  dict_set date (day, slots_of_day raw_data day) data.

(** [format_data(raw_data)] on a [RawTimeData]; the closing
    [Schedule.validate_python] returns a dictionary equal to [data]. *)
Definition format_data (raw_data : RawTimeData) : ScheduleType :=
  let sorted_days := sorted_by date_leb Day_date (days raw_data) in
  fold_left (format_day raw_data) sorted_days [].

(** What an entry of the schedule made from a feed is: the key of one of the
    days of the feed, that day, and its time slots. *)
Definition entry_of_feed (raw_data : RawTimeData)
    (e : string * (Day * list TimeSlot)) : Prop :=
  In (fst (snd e)) (days raw_data)
  /\ fst e = strftime (Day_date (fst (snd e)))
  /\ snd (snd e) = slots_of_day raw_data (fst (snd e)).

End Format_data.

(** ** The result of the duration filter, entry by entry *)

(** The free slots of one entry of a schedule: the loop of
    [free_slots_at_date] on its day and busy list. *)
Definition free_slots_of_entry (v : Day * list TimeSlot) : list TimeSlot :=
  free_slots_finish (fold_left free_slots_step (snd v) (fst v, [])).

(** What the duration filter keeps of one entry: the entry with its free
    slots that last [duration] or more, or nothing when there is none. *)
Definition suitable_entry (duration : timedelta)
    (e : string * (Day * list TimeSlot)) : list (string * (Day * list TimeSlot)) :=
  match List.filter (fits duration) (free_slots_of_entry (snd e)) with
  | [] => []
  | suitable_slots => [(fst e, (fst (snd e), suitable_slots))]
  end.

(** ** Printing and [display_schedule] ([src/helpers.py]) *)

#[global] Instance IO_ret : MRet IO := fun A a out => (Ok a, out).

#[global] Instance IO_bind : MBind IO := fun A B f m out =>
  match m out with
  | (Ok a, out') => f a out'
  | (Raise e, out') => (Raise e, out')
  end.

Definition io_raise {A} (e : exn) : IO A := fun out => (Raise e, out).

(** A call that does not print: its value or its exception. *)
Definition lift {A} (r : result A) : IO A := fun out => (r, out).

(** [print(line)]: one more entry of the output. *)
Definition print (line : string) : IO unit := fun out => (Ok tt, out ++ [line]).

(** [for x in l: body(x)] *)
Fixpoint io_for {A} (l : list A) (body : A -> IO unit) : IO unit :=
  match l with
  | [] => mret tt
  | x :: rest => body x ;; io_for rest body
  end.

Definition newline : string := String (ascii_of_nat 10) EmptyString.
Definition tab : string := String (ascii_of_nat 9) EmptyString.

(** ['-' * n] *)
Fixpoint dashes (n : nat) : string :=
  match n with
  | O => EmptyString
  | S k => String "-"%char (dashes k)
  end.

(** [f"{s:-^40}"] with 40 for [width]: [s] between dashes, the odd dash to
    the right; [s] itself when it has [width] characters or more.  (The
    characters of a string are its bytes here.) *)
Definition center_dashes (width : nat) (s : string) : string :=
  let pad := (width - String.length s)%nat in
  (dashes (Nat.div pad 2) ++ s ++ dashes (pad - Nat.div pad 2))%string.

(** [t.strftime('%H:%M')] *)
Definition strftime_HM (t : time) : string :=
  let hour := t / 3600000000 in
  let minute := (t / 60000000) mod 60 in
  (digit_of (hour / 10) ++ digit_of hour ++ ":"
   ++ digit_of (minute / 10) ++ digit_of minute)%string.

Definition rule_line : string := (newline ++ dashes 40 ++ newline)%string.

Definition title_line (title : string) : string :=
  match title with
  | EmptyString => rule_line
  | _ => (newline ++ center_dashes 40 title ++ newline)%string
  end.

Definition day_line (day : string) : string := (day ++ ":")%string.

Definition slot_line (slot : TimeSlot) : string :=
  (tab ++ strftime_HM (TimeSlot_start slot) ++ " - "
   ++ strftime_HM (TimeSlot_end slot))%string.

Definition no_slots_line (day : string) : string :=
  (day ++ ":" ++ newline ++ tab ++ "No slots available for this day.")%string.

Definition is_empty {A} (l : list A) : bool :=
  match l with [] => true | _ => false end.

(** The body of the loop [for day, day_data in schedule.items()]. *)
Definition display_day (skip_empty : bool) (e : string * (Day * list TimeSlot))
    : IO unit :=
  let day := fst e in
  let day_data := snd e in
  if is_empty (snd day_data) && skip_empty then
    (if negb skip_empty then print (no_slots_line day) else mret tt)
  else
    print (day_line day) ;;
    io_for (snd day_data) (fun slot => print (slot_line slot)).

(** [display_schedule(schedule, title, skip_empty)] *)
Definition display_schedule (schedule : ScheduleType) (title : string)
    (skip_empty : bool) : IO unit :=
  if is_empty schedule then
    io_raise (mk_exn ValueError "No schedule found.")
  else
    print (title_line title) ;;
    io_for schedule (display_day skip_empty) ;;
    print rule_line.

(** The lines [display_schedule] prints for one date. *)
Definition lines_of_day (skip_empty : bool) (e : string * (Day * list TimeSlot))
    : list string :=
  if is_empty (snd (snd e)) && skip_empty then []
  else day_line (fst e) :: map slot_line (snd (snd e)).

(** The last character of a string. *)
Fixpoint last_char (s : string) : option ascii :=
  match s with
  | EmptyString => None
  | String c EmptyString => Some c
  | String _ rest => last_char rest
  end.

(** ** The queries ([src/services.py]) *)

Section Services.

(** Calls into the library: [strftime] and [strptime] with ["%Y-%m-%d"] as
    before, [str.strip], [repr] of a string, and the call to the data
    provider, [request_data()], which returns the feed or raises.  Nothing
    is assumed of them. *)
Variable strftime : date -> string.
Variable strptime : string -> result date.
Variable strip : string -> string.
Variable repr : string -> string.
Variable request_data : IO RawTimeData.

(** The body of [show_busy]. *)
Definition show_busy_body (_ : unit) : IO ScheduleType :=
  raw_time_data ← request_data;
  let schedule := format_data strftime raw_time_data in
  display_schedule schedule "Busy slots" false ;;
  mret schedule.

Definition show_busy : unit -> IO (option ScheduleType) :=
  exception_handler show_busy_body.

(** The body of [find_free_slots]; [schedule[raw_date]] raises [KeyError]
    when [raw_date] is not a key. *)
Definition find_free_slots_body (raw_date : string) : IO (option (list TimeSlot)) :=
  date ← lift (strptime (strip raw_date));
  raw_time_data ← request_data;
  let schedule := format_data strftime raw_time_data in
  let free_slots := free_slots_at_date strftime schedule date in
  if negb (is_empty free_slots) then
    match dict_get raw_date schedule with
    | Some (d, _) =>
        display_schedule [(raw_date, (d, free_slots))] "Free slots" false ;;
        mret (Some free_slots)
    | None => io_raise (mk_exn KeyError (repr raw_date))
    end
  else
    print ("No free slots available on " ++ raw_date ++ ".")%string ;;
    mret None.

Definition find_free_slots : string -> IO (option (option (list TimeSlot))) :=
  exception_handler find_free_slots_body.

End Services.

(** ** Reading the arguments ([parse_slot_input],
       [duration_str_to_timedelta]) and the other queries *)

(** [isinstance(e, ValueError)]: [ValidationError] of pydantic derives from
    [ValueError]. *)
Definition is_ValueError (c : exn_class) : bool :=
  match c with
  | ValueError | ValidationError => true
  | _ => false
  end.

(** [s.split(sep)] for a separator of one character. *)
Fixpoint split_char (sep : ascii) (s : string) : list string :=
  match s with
  | EmptyString => [EmptyString]
  | String c rest =>
      if Ascii.eqb c sep then EmptyString :: split_char sep rest
      else match split_char sep rest with
           | [] => [String c EmptyString]
           | w :: ws => String c w :: ws
           end
  end.

Definition invalid_slot_format : exn :=
  mk_exn ValueError
    "Invalid slot format. Provide a date and a time range in the format: 'YYYY-MM-DD HH:MM-HH:MM'.".

(** [try: ... except ValueError as e: raise ValueError(<format message>) from e] *)
Definition except_ValueError {A} (r : result A) : result A :=
  match r with
  | Ok a => Ok a
  | Raise e => if is_ValueError (exn_cls e) then Raise invalid_slot_format else Raise e
  end.

(** [timedelta(hours=h, minutes=m)] on integers: the duration, when its
    number of days is within 999999999 of zero. *)
Definition timedelta_hm (overflow_error : exn) (h m : Z) : result timedelta :=
  let d := hm h m in
  if (-999999999 <=? d / 86400000000) && (d / 86400000000 <=? 999999999)
  then Ok d else Raise overflow_error.

(** [str(slot)]: the date in ISO form, then the two times. *)
Definition str_of_Slot (slot : Slot) : string :=
  (iso_strftime (Slot_date slot) ++ " " ++ strftime_HM (Slot_start slot)
   ++ "-" ++ strftime_HM (Slot_end slot))%string.

(** What [parser.parse_args()] returns: the four options of [main.py]. *)
Record Namespace := mk_Namespace
  { args_check_slot : option string;
    args_show_busy : bool;
    args_find_free_slot : option string;
    args_find_suitable_slots : option string }.

(** The truth value of an option of type [str]: given and not empty. *)
Definition given (a : option string) : bool :=
  match a with
  | Some (String _ _) => true
  | _ => false
  end.

Definition text_of (a : option string) : string :=
  match a with Some s => s | None => EmptyString end.

Section Queries.

(** Calls into the library, as before, and more of them:
    [datetime.strptime(s, "%H:%M").time()], [s.strip().split()], [int(s)].
    Two exceptions are of classes that [exn_class] does not list, and are
    taken as they come: the [IndexError] of [time[0]] on an empty list and
    the [OverflowError] of [timedelta].  Nothing is assumed of any of
    these. *)
Variable strftime : date -> string.
Variable strptime : string -> result date.
Variable strptime_time : string -> result time.
Variable strip : string -> string.
Variable words : string -> list string.
Variable int_of : string -> result Z.
Variable repr : string -> string.
Variable index_error : exn.
Variable overflow_error : exn.
Variable request_data : IO RawTimeData.

(** The [try] block of [parse_slot_input]. *)
Definition parse_slot_words (slot : string) : result (date * (time * time)) :=
  match words slot with
  | [] => Raise (mk_exn ValueError
                   "not enough values to unpack (expected at least 1, got 0)")
  | _date :: time =>
      let time := match time with
                  | [t] => split_char "-" t
                  | _ => time
                  end in
      date <- strptime (strip _date) ;;
      first <- match time with
               | [] => Raise index_error
               | t :: _ => Ok t
               end ;;
      start <- strptime_time first ;;
      end_ <- strptime_time (List.last time EmptyString) ;;
      Ok (date, (start, end_))
  end.

(** [parse_slot_input(slot)] *)
Definition parse_slot_input (slot : string) : result Slot :=
  parsed <- except_ValueError (parse_slot_words slot) ;;
  let date := fst parsed in
  let start := fst (snd parsed) in
  let end_ := snd (snd parsed) in
  if end_ <=? start then
    Raise (mk_exn ValueError "Start time must be before end time")
  else Ok (mk_Slot date start end_).

(** [duration_str_to_timedelta(duration_str)]: [map] applies [int] to a part
    when the assignment asks for it, and the assignment asks for a third
    part to see that there is none. *)
Definition duration_str_to_timedelta (duration_str : string) : result timedelta :=
  match split_char ":" (strip duration_str) with
  | [] => Raise (mk_exn ValueError "not enough values to unpack (expected 2, got 0)")
  | [p0] =>
      _ <- int_of p0 ;;
      Raise (mk_exn ValueError "not enough values to unpack (expected 2, got 1)")
  | [p0; p1] =>
      hours <- int_of p0 ;;
      minutes <- int_of p1 ;;
      timedelta_hm overflow_error hours minutes
  | p0 :: p1 :: p2 :: _ =>
      _ <- int_of p0 ;;
      _ <- int_of p1 ;;
      _ <- int_of p2 ;;
      Raise (mk_exn ValueError "too many values to unpack (expected 2)")
  end.

(** The body of [check_slot]; [parse_slot_input] never returns [None]. *)
Definition check_slot_body (raw_slot : string) : IO bool :=
  slot ← lift (parse_slot_input raw_slot);
  raw_schedule ← request_data;
  let schedule := format_data strftime raw_schedule in
  let free_slots := free_slots_at_date strftime schedule (Slot_date slot) in
  if is_empty free_slots then
    print "Sorry, no slots are available for the selected date." ;;
    mret false
  else if can_schedule_slot slot free_slots then
    print "The slot can be scheduled at the selected time." ;;
    mret true
  else
    print ("Sorry, slot " ++ str_of_Slot slot ++ " is unavailable.")%string ;;
    mret false.

Definition check_slot : string -> IO (option bool) :=
  exception_handler check_slot_body.

(** The body of [find_slot]. *)
Definition find_slot_body (raw_duration : string) : IO (option ScheduleType) :=
  duration ← lift (duration_str_to_timedelta raw_duration);
  raw_time_data ← request_data;
  let schedule := format_data strftime raw_time_data in
  suitable_slots ← lift (find_suitable_slot strftime strptime schedule duration);
  if negb (is_empty suitable_slots) then
    display_schedule suitable_slots "Suitable free slots" true ;;
    mret (Some suitable_slots)
  else
    print "No suitable free slots found." ;;
    mret None.

Definition find_slot : string -> IO (option (option ScheduleType)) :=
  exception_handler find_slot_body.

(** [args.find_slot]: the parser defines no such option. *)
Definition args_find_slot (args : Namespace) : IO string :=
  io_raise (mk_exn AttributeError "'Namespace' object has no attribute 'find_slot'").

(** [main()], from the arguments as [parse_args] returns them. *)
Definition main (args : Namespace) : IO unit :=
  (if given (args_check_slot args) then
     check_slot (text_of (args_check_slot args)) ;; mret tt
   else mret tt) ;;
  (if args_show_busy args then
     show_busy strftime request_data tt ;; mret tt
   else mret tt) ;;
  (if given (args_find_free_slot args) then
     raw_date ← args_find_slot args;
     find_free_slots strftime strptime strip repr request_data raw_date ;; mret tt
   else mret tt) ;;
  (if given (args_find_suitable_slots args) then
     find_slot (text_of (args_find_suitable_slots args)) ;; mret tt
   else mret tt).

End Queries.

(** ** The feed of the test suite ([TEST_DATA] of [tests/conftest.py]) *)

Definition TEST_DATA : RawTimeData :=
  {| days := [day_1; day_2];
     timeslots := [mk_RawTimeSlot 1 1 (hm 11 0) (hm 12 0);
                   mk_RawTimeSlot 3 2 (hm 9 30) (hm 16 0)] |}.

(** ** Instances of the other library calls

    Like [iso_strftime] and [iso_strptime], these serve to run the queries
    on examples: [strip] of the spaces at the ends of a string, [split] on
    words that one space separates, [strptime] with ["%H:%M"] on the
    zero-padded form, [int] on a row of digits, [repr] on a string without
    quote, and a provider that answers with the feed of the tests.  The two
    exceptions outside [exn_class] are stood in for by exceptions of a
    sister class: [KeyError] for [IndexError], [ZeroDivisionError] for
    [OverflowError]. *)

Fixpoint strip_left (s : string) : string :=
  match s with
  | String c rest => if Ascii.eqb c " "%char then strip_left rest else s
  | EmptyString => EmptyString
  end.

Fixpoint strip_right (s : string) : string :=
  match s with
  | EmptyString => EmptyString
  | String c rest =>
      match strip_right rest with
      | EmptyString => if Ascii.eqb c " "%char then EmptyString
                       else String c EmptyString
      | rest' => String c rest'
      end
  end.

Definition space_strip (s : string) : string := strip_right (strip_left s).

Definition space_words (s : string) : list string := split_char " " s.

Definition hm_strptime (s : string) : result time :=
  match list_ascii_of_string s with
  | [h1; h2; c; m1; m2] =>
      match number_of [h1; h2] 0, number_of [m1; m2] 0 with
      | Some h, Some m =>
          if Ascii.eqb c ":"%char && (h <=? 23) && (m <=? 59) then Ok (hm h m)
          else Raise (mk_exn ValueError
                        ("time data " ++ quoted s ++ " does not match format "
                         ++ quoted "%H:%M")%string)
      | _, _ => Raise (mk_exn ValueError
                         ("time data " ++ quoted s ++ " does not match format "
                          ++ quoted "%H:%M")%string)
      end
  | _ => Raise (mk_exn ValueError
                  ("time data " ++ quoted s ++ " does not match format "
                   ++ quoted "%H:%M")%string)
  end.

Definition decimal_int (s : string) : result Z :=
  match list_ascii_of_string s with
  | [] => Raise (mk_exn ValueError
                   ("invalid literal for int() with base 10: " ++ quoted s)%string)
  | cs =>
      match number_of cs 0 with
      | Some n => Ok n
      | None => Raise (mk_exn ValueError
                         ("invalid literal for int() with base 10: " ++ quoted s)%string)
      end
  end.

Definition stand_in_index_error : exn := mk_exn KeyError "list index out of range".

Definition stand_in_overflow_error : exn :=
  mk_exn ZeroDivisionError "days out of range; must have magnitude <= 999999999".

Definition test_provider : IO RawTimeData := lift (Ok TEST_DATA).

(** * Properties *)

(** ** Dictionaries *)

Lemma dict_get_In {V} (k : string) (v : V) (d : dict V) :
  dict_get k d = Some v -> In (k, v) d.
Proof.
  induction d as [|[k' v'] rest IH]; simpl; [discriminate|].
  destruct (String.eqb_spec k k') as [->|Hne].
  - intros [= ->]. now left.
  - intros Hget. right. now apply IH.
Qed.

Lemma dict_get_keys {V} (k : string) (d : dict V) :
  dict_get k d = None <-> ~ In k (keys d).
Proof.
  induction d as [|[k' v'] rest IH]; simpl.
  - tauto.
  - destruct (String.eqb_spec k k') as [->|Hne].
    + split; [discriminate|]. intros Hn. exfalso. apply Hn. now left.
    + rewrite IH. split; intros Hn; [intros [Heq|Hin]|]; try congruence; tauto.
Qed.

Lemma dict_get_ok {V} (k : string) (v : V) (d : dict V) :
  dict_ok d -> In (k, v) d -> dict_get k d = Some v.
Proof.
  unfold dict_ok. induction d as [|[k' v'] rest IH]; simpl; [tauto|].
  intros Hnd [Heq|Hin].
  - injection Heq as -> ->. now rewrite String.eqb_refl.
  - apply List.NoDup_cons_iff in Hnd as [Hfresh Hnd].
    destruct (String.eqb_spec k k') as [->|Hne].
    + exfalso. apply Hfresh. change k' with (fst (k', v)). now apply in_map.
    + now apply IH.
Qed.

(** ** The loop of the free-slot finder *)

Lemma free_slots_walk (busy : list TimeSlot) (d : Day) (acc : list TimeSlot) :
  free_slots_finish (fold_left free_slots_step busy (d, acc))
  = acc ++ walk (Day_id d) (Day_start d) (Day_end d) busy.
Proof.
  revert d acc. induction busy as [|s rest IH]; intros d acc; simpl.
  - destruct (Day_start d =? Day_end d); simpl; [now rewrite app_nil_r|reflexivity].
  - destruct (Day_start d =? TimeSlot_start s).
    + now rewrite IH.
    + destruct (Day_start d <? TimeSlot_start s).
      * rewrite IH. simpl. now rewrite <- app_assoc.
      * now rewrite IH.
Qed.

Section Free_slots.

Variable strftime : date -> string.

Lemma free_slots_known (schedule : ScheduleType) (date_key : date)
    (d : Day) (busy : list TimeSlot) :
  dict_get (strftime date_key) schedule = Some (d, busy) ->
  free_slots_at_date strftime schedule date_key
  = walk (Day_id d) (Day_start d) (Day_end d) busy.
Proof.
  intros Hget. unfold free_slots_at_date. rewrite Hget.
  now rewrite free_slots_walk.
Qed.

(** C2: with an empty busy list the free-slot finder returns the single
    interval from [d.start] to [d.end], and nothing when [d.start] equals
    [d.end]. *)
Theorem free_slots_of_empty_day (schedule : ScheduleType) (date_key : date)
    (d : Day) :
  dict_get (strftime date_key) schedule = Some (d, []) ->
  (Day_start d <> Day_end d ->
     free_slots_at_date strftime schedule date_key
     = [mk_TimeSlot (Day_id d) (Day_start d) (Day_end d)])
  /\ (Day_start d = Day_end d ->
        free_slots_at_date strftime schedule date_key = []).
Proof.
  intros Hget. rewrite (free_slots_known _ _ _ _ Hget). simpl.
  split; intros Hse.
  - apply Z.eqb_neq in Hse. now rewrite Hse.
  - apply Z.eqb_eq in Hse. now rewrite Hse.
Qed.

(** C10: a date whose key is not in the schedule gives the empty list, and
    so does a known date whose single busy interval is its whole window:
    the returned value is the same in both cases. *)
Theorem free_slots_unknown_date (schedule : ScheduleType) (date_key : date) :
  (dict_get (strftime date_key) schedule = None ->
     free_slots_at_date strftime schedule date_key = [])
  /\ (forall d s,
        dict_get (strftime date_key) schedule = Some (d, [s]) ->
        TimeSlot_start s = Day_start d -> TimeSlot_end s = Day_end d ->
        free_slots_at_date strftime schedule date_key = []).
Proof.
  split.
  - intros Hget. unfold free_slots_at_date. now rewrite Hget.
  - intros d s Hget Hs He. rewrite (free_slots_known _ _ _ _ Hget). simpl.
    rewrite Hs, He, !Z.eqb_refl. reflexivity.
Qed.

End Free_slots.

(** ** Tiling of the window *)

Lemma covering_app (t : time) (l1 l2 : list TimeSlot) :
  covering t (l1 ++ l2) = (covering t l1 + covering t l2)%nat.
Proof. unfold covering. now rewrite List.filter_app, length_app. Qed.

Lemma covering_cons (t : time) (s : TimeSlot) (l : list TimeSlot) :
  covering t (s :: l) = ((if at_instant t s then 1 else 0) + covering t l)%nat.
Proof. unfold covering. simpl. now destruct (at_instant t s). Qed.

Lemma covering_In (t : time) (s : TimeSlot) (l : list TimeSlot) :
  In s l -> at_instant t s = true -> (1 <= covering t l)%nat.
Proof.
  induction l as [|x l IH]; simpl; [tauto|].
  intros [->|Hin] Hat; rewrite covering_cons.
  - rewrite Hat. lia.
  - specialize (IH Hin Hat). lia.
Qed.

Lemma at_instant_spec (t : time) (s : TimeSlot) :
  at_instant t s = true <-> TimeSlot_start s <= t < TimeSlot_end s.
Proof. unfold at_instant. rewrite andb_true_iff, Z.leb_le, Z.ltb_lt. tauto. Qed.

Lemma busy_lined_up (cur : time) (busy : list TimeSlot) :
  Forall (fun s => TimeSlot_start s < TimeSlot_end s) busy ->
  Forall (fun s => cur <= TimeSlot_start s) busy ->
  ForallOrdPairs (fun a b => TimeSlot_start a <= TimeSlot_start b) busy ->
  ForallOrdPairs (fun a b => ~ overlap a b) busy ->
  lined_up cur busy.
Proof.
  revert cur. induction busy as [|s rest IH]; intros cur Hp Hc Hs Hd; simpl; [exact I|].
  inversion Hp as [|? ? Hps Hprest]; subst.
  inversion Hc as [|? ? Hcs _]; subst.
  inversion Hs as [|? ? Hss Hsrest]; subst.
  inversion Hd as [|? ? Hds Hdrest]; subst.
  repeat split; [assumption..|].
  apply IH; try assumption.
  rewrite List.Forall_forall in *. intros b Hb.
  specialize (Hprest b Hb). specialize (Hss b Hb). specialize (Hds b Hb).
  destruct (Z_le_gt_dec (TimeSlot_end s) (TimeSlot_start b)) as [Hle|Hgt]; [exact Hle|].
  exfalso. apply Hds. exists (TimeSlot_start b).
  rewrite !at_instant_spec. lia.
Qed.

Lemma busy_ok_lined_up (d : Day) (busy : list TimeSlot) :
  busy_ok d busy -> lined_up (Day_start d) busy.
Proof.
  intros [Hp Hw Hs Hd]. apply busy_lined_up; try assumption.
  eapply List.Forall_impl; [|exact Hw]. simpl. tauto.
Qed.

Lemma walk_covering (id : Z) (stop : time) (busy : list TimeSlot) :
  forall cur t,
    lined_up cur busy -> cur <= stop ->
    Forall (fun s => TimeSlot_end s <= stop) busy ->
    covering t (walk id cur stop busy ++ busy)
    = if (cur <=? t) && (t <? stop) then 1%nat else 0%nat.
Proof.
  induction busy as [|s rest IH]; intros cur t Hl Hcs Hb; simpl.
  - destruct (Z.eqb_spec cur stop) as [->|Hne]; simpl.
    + unfold covering. simpl. destruct (stop <=? t) eqn:E1, (t <? stop) eqn:E2; try reflexivity.
      apply Z.leb_le in E1. apply Z.ltb_lt in E2. lia.
    + rewrite covering_cons. unfold at_instant. simpl.
      unfold covering. simpl. destruct ((cur <=? t) && (t <? stop)); reflexivity.
  - destruct Hl as (Hcur & Hprop & Hl).
    inversion Hb as [|? ? Hes Hbrest]; subst.
    assert (Hrest := IH (TimeSlot_end s) t Hl Hes Hbrest).
    assert (Hmid : forall l, covering t (l ++ s :: rest)
                   = ((if at_instant t s then 1 else 0) + covering t (l ++ rest))%nat).
    { intros l. rewrite !covering_app, covering_cons. lia. }
    destruct (Z.eqb_spec cur (TimeSlot_start s)) as [Heq|Hne].
    + rewrite Hmid, Hrest. unfold at_instant.
      destruct (TimeSlot_start s <=? t) eqn:E1, (t <? TimeSlot_end s) eqn:E2,
               (TimeSlot_end s <=? t) eqn:E3, (t <? stop) eqn:E4,
               (cur <=? t) eqn:E5; simpl; try reflexivity;
        rewrite ?Z.leb_le, ?Z.leb_gt, ?Z.ltb_lt, ?Z.ltb_ge in *; lia.
    + destruct (Z.ltb_spec cur (TimeSlot_start s)) as [Hlt|Hge]; [|lia].
      change ((?x :: ?l) ++ ?r) with (x :: (l ++ r)).
      rewrite covering_cons, Hmid, Hrest. unfold at_instant. simpl.
      destruct (TimeSlot_start s <=? t) eqn:E1, (t <? TimeSlot_end s) eqn:E2,
               (TimeSlot_end s <=? t) eqn:E3, (t <? stop) eqn:E4,
               (cur <=? t) eqn:E5, (t <? TimeSlot_start s) eqn:E6;
        simpl; try reflexivity;
        rewrite ?Z.leb_le, ?Z.leb_gt, ?Z.ltb_lt, ?Z.ltb_ge in *; lia.
Qed.

Lemma walk_bounds (id : Z) (stop : time) (busy : list TimeSlot) :
  forall cur,
    lined_up cur busy -> cur <= stop ->
    Forall (fun s => TimeSlot_end s <= stop) busy ->
    Forall (fun f => cur <= TimeSlot_start f
                     /\ TimeSlot_start f < TimeSlot_end f
                     /\ TimeSlot_end f <= stop)
           (walk id cur stop busy).
Proof.
  induction busy as [|s rest IH]; intros cur Hl Hcs Hb; simpl.
  - destruct (Z.eqb_spec cur stop) as [->|Hne]; simpl; constructor; simpl; [lia|constructor].
  - destruct Hl as (Hcur & Hprop & Hl).
    inversion Hb as [|? ? Hes Hbrest]; subst.
    assert (Hrest := IH (TimeSlot_end s) Hl Hes Hbrest).
    assert (Hweak : Forall (fun f => cur <= TimeSlot_start f
                     /\ TimeSlot_start f < TimeSlot_end f
                     /\ TimeSlot_end f <= stop)
                     (walk id (TimeSlot_end s) stop rest)).
    { eapply List.Forall_impl; [|exact Hrest]. simpl. intros f. lia. }
    destruct (Z.eqb_spec cur (TimeSlot_start s)) as [Heq|Hne]; [exact Hweak|].
    destruct (Z.ltb_spec cur (TimeSlot_start s)) as [Hlt|Hge]; [|lia].
    constructor; [simpl; lia|exact Hweak].
Qed.

Lemma walk_ordered (id : Z) (stop : time) (busy : list TimeSlot) :
  forall cur,
    lined_up cur busy -> cur <= stop ->
    Forall (fun s => TimeSlot_end s <= stop) busy ->
    ForallOrdPairs (fun a b => TimeSlot_end a <= TimeSlot_start b)
                   (walk id cur stop busy).
Proof.
  induction busy as [|s rest IH]; intros cur Hl Hcs Hb; simpl.
  - destruct (negb (cur =? stop)); repeat constructor.
  - destruct Hl as (Hcur & Hprop & Hl).
    inversion Hb as [|? ? Hes Hbrest]; subst.
    assert (Hrest := IH (TimeSlot_end s) Hl Hes Hbrest).
    destruct (Z.eqb_spec cur (TimeSlot_start s)) as [Heq|Hne]; [exact Hrest|].
    destruct (Z.ltb_spec cur (TimeSlot_start s)) as [Hlt|Hge]; [|lia].
    constructor; [|exact Hrest].
    eapply List.Forall_impl; [|exact (walk_bounds id stop rest _ Hl Hes Hbrest)].
    simpl. intros f. lia.
Qed.

Lemma ordered_disjoint (l : list TimeSlot) :
  ForallOrdPairs (fun a b => TimeSlot_end a <= TimeSlot_start b) l ->
  ForallOrdPairs (fun a b => ~ overlap a b) l.
Proof.
  induction 1 as [|a l Ha _ IH]; constructor; [|exact IH].
  eapply List.Forall_impl; [|exact Ha]. simpl.
  intros b Hab (t & Hta & Htb). rewrite at_instant_spec in Hta, Htb. lia.
Qed.

Lemma walk_empty_iff (id : Z) (stop : time) (busy : list TimeSlot) :
  forall cur,
    lined_up cur busy ->
    walk id cur stop busy = [] <-> fully_booked cur stop busy.
Proof.
  induction busy as [|s rest IH]; intros cur Hl; simpl.
  - destruct (Z.eqb_spec cur stop) as [Heq|Hne]; simpl; split; congruence.
  - destruct Hl as (Hcur & Hprop & Hl).
    destruct (Z.eqb_spec cur (TimeSlot_start s)) as [Heq|Hne].
    + rewrite (IH _ Hl). intuition congruence.
    + destruct (Z.ltb_spec cur (TimeSlot_start s)) as [Hlt|Hge]; [|lia].
      split; [discriminate|]. intros [Heq _]. congruence.
Qed.

Section Free_slots_of_a_day.

Variable strftime : date -> string.

(** C1: on a day with [d.start < d.end] whose busy list is sorted, without
    overlap and inside the window, the free intervals and the busy ones
    tile the window: an instant of the window lies in exactly one of them
    and an instant outside in none; the free intervals are not empty,
    come in order, each ending before the next starts, and overlap
    neither each other nor a busy interval. *)
Theorem free_slots_tile_window (schedule : ScheduleType) (date_key : date)
    (d : Day) (busy : list TimeSlot) :
  dict_get (strftime date_key) schedule = Some (d, busy) ->
  Day_start d < Day_end d ->
  busy_ok d busy ->
  let free := free_slots_at_date strftime schedule date_key in
  (forall t, Day_start d <= t < Day_end d -> covering t (free ++ busy) = 1%nat)
  /\ (forall t, ~ Day_start d <= t < Day_end d -> covering t (free ++ busy) = 0%nat)
  /\ Forall (fun f => TimeSlot_start f < TimeSlot_end f) free
  /\ ForallOrdPairs (fun a b => TimeSlot_end a <= TimeSlot_start b) free
  /\ ForallOrdPairs (fun a b => ~ overlap a b) free
  /\ (forall f b, In f free -> In b busy -> ~ overlap f b).
Proof.
  intros Hget Hday Hok free. subst free.
  rewrite (free_slots_known _ _ _ _ _ Hget).
  assert (Hl := busy_ok_lined_up _ _ Hok).
  assert (Hstop : Forall (fun s => TimeSlot_end s <= Day_end d) busy).
  { eapply List.Forall_impl; [|exact (busy_within _ _ Hok)]. simpl. tauto. }
  assert (Hle : Day_start d <= Day_end d) by lia.
  assert (Hcov := fun t => walk_covering (Day_id d) _ _ _ t Hl Hle Hstop).
  assert (Hord := walk_ordered (Day_id d) _ _ _ Hl Hle Hstop).
  repeat split.
  - intros t Ht. rewrite Hcov.
    destruct (Z.leb_spec (Day_start d) t), (Z.ltb_spec t (Day_end d)); simpl; lia.
  - intros t Ht. rewrite Hcov.
    destruct (Z.leb_spec (Day_start d) t), (Z.ltb_spec t (Day_end d)); simpl; lia.
  - eapply List.Forall_impl; [|exact (walk_bounds (Day_id d) _ _ _ Hl Hle Hstop)].
    simpl. tauto.
  - exact Hord.
  - now apply ordered_disjoint.
  - intros f b Hf Hb (t & Htf & Htb).
    specialize (Hcov t). rewrite covering_app in Hcov.
    pose proof (covering_In t f _ Hf Htf).
    pose proof (covering_In t b _ Hb Htb).
    destruct ((Day_start d <=? t) && (t <? Day_end d)); lia.
Qed.

(** C3, as amended: under the precondition on the busy list the free-slot
    finder returns the empty list exactly when the busy intervals cover
    the window without a hole: the first starts at [d.start], each next
    one starts where the one before ends, the last ends at [d.end].  One
    interval equal to the window is the case of a list of length one. *)
Theorem free_slots_empty_iff_fully_booked (schedule : ScheduleType)
    (date_key : date) (d : Day) (busy : list TimeSlot) :
  dict_get (strftime date_key) schedule = Some (d, busy) ->
  busy_ok d busy ->
  free_slots_at_date strftime schedule date_key = []
  <-> fully_booked (Day_start d) (Day_end d) busy.
Proof.
  intros Hget Hok. rewrite (free_slots_known _ _ _ _ _ Hget).
  apply walk_empty_iff. now apply busy_ok_lined_up.
Qed.

End Free_slots_of_a_day.

(** ** Slot check *)

(** C6: [can_schedule_slot] answers true exactly when some free interval
    [f] has [f.start <= slot.start] and [slot.end <= f.end]; equal bounds
    count as inside, and with no free interval the answer is false. *)
Theorem can_schedule_slot_iff (slot : Slot) (free_slots : list TimeSlot) :
  (can_schedule_slot slot free_slots = true
   <-> exists f, In f free_slots
                 /\ TimeSlot_start f <= Slot_start slot
                 /\ Slot_end slot <= TimeSlot_end f)
  /\ (forall f, In f free_slots ->
        TimeSlot_start f = Slot_start slot -> TimeSlot_end f = Slot_end slot ->
        can_schedule_slot slot free_slots = true)
  /\ can_schedule_slot slot [] = false.
Proof.
  assert (Hiff : can_schedule_slot slot free_slots = true
   <-> exists f, In f free_slots
                 /\ TimeSlot_start f <= Slot_start slot
                 /\ Slot_end slot <= TimeSlot_end f).
  { assert (Hex : can_schedule_slot slot free_slots
                  = existsb (fun f => check_time_boundaries slot f) free_slots)
      by (destruct free_slots; reflexivity).
    rewrite Hex, existsb_exists. unfold check_time_boundaries. simpl.
    split; intros (f & Hin & Hb); exists f; split; try assumption.
    - apply andb_true_iff in Hb. now rewrite !Z.leb_le in Hb.
    - apply andb_true_iff. now rewrite !Z.leb_le. }
  split; [exact Hiff|]. split; [|reflexivity].
  intros f Hin Hs He. apply Hiff. exists f. split; [assumption|lia].
Qed.

(** ** Duration filter *)

Lemma dict_set_In {V} (k : string) (v : V) (d : dict V) (e : string * V) :
  In e (dict_set k v d) -> e = (k, v) \/ In e d.
Proof.
  induction d as [|[k' v'] rest IH]; simpl.
  - intros [<-|[]]. now left.
  - destruct (String.eqb k k'); simpl.
    + intros [<-|Hin]; [now left|right; now right].
    + intros [<-|Hin]; [right; now left|].
      destruct (IH Hin) as [->|Hr]; [now left|right; now right].
Qed.

Lemma dict_set_fresh {V} (k : string) (v : V) (d : dict V) :
  ~ In k (keys d) -> dict_set k v d = d ++ [(k, v)].
Proof.
  induction d as [|[k' v'] rest IH]; simpl; [reflexivity|].
  intros Hn. destruct (String.eqb_spec k k') as [->|Hne]; [tauto|].
  rewrite IH; [reflexivity|tauto].
Qed.

Lemma filter_sublist {A} (p : A -> bool) (l : list A) :
  sublist (List.filter p l) l.
Proof.
  induction l as [|x l IH]; simpl; [constructor|].
  destruct (p x); now constructor.
Qed.

Lemma filter_nil_of_none {A} (p : A -> bool) (l : list A) :
  Forall (fun x => p x = false) l -> List.filter p l = [].
Proof.
  induction 1 as [|x l Hx _ IH]; simpl; [reflexivity|]. now rewrite Hx.
Qed.

Section Duration_filter.

Variable strftime : date -> string.
Variable strptime : string -> result date.

(** C5: a duration that is not strictly positive makes the duration
    filter raise [ValueError], whatever the schedule. *)
Theorem find_suitable_slot_rejects_duration (schedule : ScheduleType)
    (duration : timedelta) :
  duration <= 0 ->
  find_suitable_slot strftime strptime schedule duration
  = Raise (mk_exn ValueError "Invalid duration. Must be a positive timedelta.").
Proof.
  intros Hd. unfold find_suitable_slot, total_seconds_nonpos.
  apply Z.leb_le in Hd. now rewrite Hd.
Qed.

Lemma find_suitable_step_kept (schedule : ScheduleType) (duration : timedelta)
    (acc acc' : ScheduleType) (key : string) :
  find_suitable_step strftime strptime schedule duration acc key = Ok acc' ->
  Forall (kept_entry strftime strptime schedule duration) acc ->
  Forall (kept_entry strftime strptime schedule duration) acc'.
Proof.
  unfold find_suitable_step. intros Hstep Hacc.
  destruct (strptime key) as [_date|e] eqn:Hparse; [simpl in Hstep|discriminate].
  destruct (List.filter _ _) as [|x xs] eqn:Hfilter.
  - now injection Hstep as <-.
  - destruct (dict_get key schedule) as [[d _busy]|]; [|discriminate].
    injection Hstep as <-. rewrite List.Forall_forall in *.
    intros e He. apply dict_set_In in He as [->|He]; [|now apply Hacc].
    exists _date. simpl. rewrite Hfilter. repeat split; congruence.
Qed.

Lemma find_suitable_loop_kept (schedule : ScheduleType) (duration : timedelta)
    (ks : list string) :
  forall acc res,
    find_suitable_loop strftime strptime schedule duration ks acc = Ok res ->
    Forall (kept_entry strftime strptime schedule duration) acc ->
    Forall (kept_entry strftime strptime schedule duration) res.
Proof.
  induction ks as [|key rest IH]; intros acc res; simpl.
  - now intros [= <-].
  - destruct (find_suitable_step _ _ _ _ _ _) as [acc'|e] eqn:Hstep; simpl;
      [|discriminate].
    intros Hloop Hacc. apply (IH acc' res Hloop).
    eapply find_suitable_step_kept; eassumption.
Qed.

End Duration_filter.

Section Duration_filter_result.

Variable strftime : date -> string.
Variable strptime : string -> result date.

Lemma find_suitable_slot_kept (schedule : ScheduleType) (duration : timedelta)
    (res : ScheduleType) :
  find_suitable_slot strftime strptime schedule duration = Ok res ->
  Forall (kept_entry strftime strptime schedule duration) res.
Proof.
  unfold find_suitable_slot. destruct (total_seconds_nonpos duration); [discriminate|].
  intros Hloop. eapply find_suitable_loop_kept; [exact Hloop|constructor].
Qed.

(** C4: every entry of the result of the duration filter has at least one
    interval and each of its intervals lasts [duration] or more; a date
    whose free intervals are all shorter than [duration] (or that has
    none) has no entry in the result. *)
Theorem find_suitable_slot_meets_duration (schedule : ScheduleType)
    (duration : timedelta) (res : ScheduleType) :
  find_suitable_slot strftime strptime schedule duration = Ok res ->
  (forall key d intervals,
     In (key, (d, intervals)) res ->
     intervals <> []
     /\ Forall (fun x => duration <= time_diff (TimeSlot_end x) (TimeSlot_start x))
               intervals)
  /\ (forall key _date,
        strptime key = Ok _date ->
        Forall (fun x => time_diff (TimeSlot_end x) (TimeSlot_start x) < duration)
               (free_slots_at_date strftime schedule _date) ->
        ~ In key (keys res)).
Proof.
  intros Hres. pose proof (find_suitable_slot_kept _ _ _ Hres) as Hkept.
  rewrite List.Forall_forall in Hkept. split.
  - intros key d intervals Hin.
    destruct (Hkept _ Hin) as (_date & _ & Hfilter & Hne). simpl in *.
    split; [exact Hne|]. rewrite Hfilter, List.Forall_forall.
    intros x Hx. apply List.filter_In in Hx as [_ Hfit].
    now apply Z.leb_le in Hfit.
  - intros key _date Hparse Hshort Hkey. unfold keys in Hkey.
    apply List.in_map_iff in Hkey as ([k [d intervals]] & Hk & Hin).
    simpl in Hk. subst k.
    destruct (Hkept _ Hin) as (_date' & Hparse' & Hfilter & Hne). simpl in *.
    assert (_date' = _date) by congruence. subst _date'.
    apply Hne. rewrite Hfilter. apply filter_nil_of_none.
    eapply List.Forall_impl; [|exact Hshort]. simpl.
    intros x Hx. unfold fits. apply Z.leb_gt. exact Hx.
Qed.

Lemma find_suitable_loop_order (schedule : ScheduleType) (duration : timedelta)
    (ks : list string) :
  forall acc res,
    find_suitable_loop strftime strptime schedule duration ks acc = Ok res ->
    List.NoDup ks ->
    (forall k, In k ks -> ~ In k (keys acc)) ->
    exists kept, res = acc ++ kept /\ sublist (keys kept) ks.
Proof.
  induction ks as [|key rest IH]; intros acc res; simpl.
  - intros [= <-] _ _. exists []. rewrite app_nil_r. split; [reflexivity|constructor].
  - destruct (find_suitable_step _ _ _ _ _ _) as [acc'|e] eqn:Hstep; simpl;
      [|discriminate].
    intros Hloop Hnd Hfresh. apply List.NoDup_cons_iff in Hnd as [Hkey Hnd].
    unfold find_suitable_step in Hstep.
    destruct (strptime key) as [_date|e']; [simpl in Hstep|discriminate].
    destruct (List.filter _ _) as [|x xs].
    + injection Hstep as <-.
      destruct (IH acc res Hloop Hnd) as (kept & -> & Hsub).
      { intros k Hk. apply Hfresh. now right. }
      exists kept. split; [reflexivity|now constructor].
    + destruct (dict_get key schedule) as [[d _busy]|]; [|discriminate].
      injection Hstep as <-.
      rewrite dict_set_fresh in Hloop by (apply Hfresh; now left).
      destruct (IH _ res Hloop Hnd) as (kept & -> & Hsub).
      { intros k Hk. unfold keys. rewrite map_app, in_app_iff. simpl.
        intros [Hin|[<-|[]]]; [|tauto]. apply (Hfresh k); [now right|exact Hin]. }
      exists ((key, (d, x :: xs)) :: kept). rewrite <- app_assoc. simpl.
      split; [reflexivity|now constructor].
Qed.

(** C7: the result of the duration filter keeps the order of its input:
    its dates are a subsequence of the dates of the schedule, and the
    intervals of a kept date are those of the free-slot finder for that
    date that pass the filter, in the order the finder produced them. *)
Theorem find_suitable_slot_keeps_order (schedule : ScheduleType)
    (duration : timedelta) (res : ScheduleType) :
  dict_ok schedule ->
  find_suitable_slot strftime strptime schedule duration = Ok res ->
  sublist (keys res) (keys schedule)
  /\ (forall key d intervals,
        In (key, (d, intervals)) res ->
        exists _date,
          strptime key = Ok _date
          /\ intervals = List.filter (fits duration)
                           (free_slots_at_date strftime schedule _date)
          /\ sublist intervals (free_slots_at_date strftime schedule _date)).
Proof.
  intros Hok Hres. split.
  - unfold find_suitable_slot in Hres.
    destruct (total_seconds_nonpos duration); [discriminate|].
    destruct (find_suitable_loop_order _ _ _ _ _ Hres Hok) as (kept & -> & Hsub).
    + intros k _ [].
    + exact Hsub.
  - intros key d intervals Hin.
    pose proof (find_suitable_slot_kept _ _ _ Hres) as Hkept.
    rewrite List.Forall_forall in Hkept.
    destruct (Hkept _ Hin) as (_date & Hparse & Hfilter & _). simpl in *.
    exists _date. repeat split; try assumption.
    rewrite Hfilter. apply filter_sublist.
Qed.

End Duration_filter_result.

(** ** Error boundary *)

(** C9, as amended: when the wrapped function raises an exception that is an
    instance of [Exception], the wrapper prints the one line
    [ERROR: <message>] after what the function printed and returns [None]
    without raising; when the function returns, the wrapper returns the
    same value and prints nothing more. *)
Theorem exception_handler_reports {A B} (func : A -> IO B) (args : A)
    (out : stdout) :
  (forall e out',
     func args out = (Raise e, out') ->
     is_Exception (exn_cls e) = true ->
     exception_handler func args out
     = (Ok None, out' ++ [("ERROR: " ++ exn_str e)%string]))
  /\ (forall v out',
        func args out = (Ok v, out') ->
        exception_handler func args out = (Ok (Some v), out')).
Proof.
  unfold exception_handler. split.
  - intros e out' -> ->. reflexivity.
  - intros v out' ->. reflexivity.
Qed.

(** C9 as stated fails: an exception that derives from [BaseException]
    only, such as [KeyboardInterrupt], leaves the wrapper: it is not true
    that the wrapper returns whenever the wrapped function raises. *)
Lemma exception_handler_lets_interrupt_through :
  ~ (forall (func : unit -> IO unit) (args : unit) (out : stdout) e out',
       func args out = (Raise e, out') ->
       exists r out'', exception_handler func args out = (Ok r, out'')).
Proof.
  intros Hall.
  destruct (Hall (fun _ out => (Raise (mk_exn KeyboardInterrupt ""), out))
                 tt [] (mk_exn KeyboardInterrupt "") [] eq_refl)
    as (r & out'' & Hrun).
  discriminate Hrun.
Qed.

(** ** The free-slot finder on the object store *)

Lemma during_length (h0 : Store.heap) (d : Day) (acc : list TimeSlot) :
  length (Store.during h0 d acc) = (length h0 + 2 + length acc)%nat.
Proof. unfold Store.during. rewrite length_app. simpl. rewrite length_map. lia. Qed.

Lemma during_old (h0 : Store.heap) (d : Day) (acc : list TimeSlot) (l : Store.loc) :
  (l < length h0)%nat -> Store.during h0 d acc !! l = h0 !! l.
Proof. intros Hl. unfold Store.during. now rewrite lookup_app_l. Qed.

Lemma during_day (h0 : Store.heap) (d : Day) (acc : list TimeSlot) :
  Store.lookup_day (Store.during h0 d acc) (length h0) = Some d.
Proof.
  unfold Store.lookup_day, Store.during.
  rewrite lookup_app_r by lia. now rewrite Nat.sub_diag.
Qed.

Lemma during_items (h0 : Store.heap) (d : Day) (acc : list TimeSlot) :
  Store.lookup_items (Store.during h0 d acc) (S (length h0))
  = Some (seq (S (S (length h0))) (length acc)).
Proof.
  unfold Store.lookup_items, Store.during.
  rewrite lookup_app_r by lia.
  replace (S (length h0) - length h0)%nat with 1%nat by lia. reflexivity.
Qed.

Lemma during_assign (h0 : Store.heap) (d d' : Day) (acc : list TimeSlot) :
  <[length h0 := Store.ODay d']> (Store.during h0 d acc) = Store.during h0 d' acc.
Proof.
  unfold Store.during. rewrite insert_app_r_alt by lia.
  now rewrite Nat.sub_diag.
Qed.

Lemma during_append (h0 : Store.heap) (d : Day) (acc : list TimeSlot) (g : TimeSlot) :
  <[S (length h0) :=
      Store.OList (seq (S (S (length h0))) (length acc)
                   ++ [length (Store.during h0 d acc)])]>
    (Store.during h0 d acc ++ [Store.OTimeSlot g])
  = Store.during h0 d (acc ++ [g]).
Proof.
  rewrite during_length. unfold Store.during.
  rewrite <- app_assoc. rewrite insert_app_r_alt by lia.
  replace (S (length h0) - length h0)%nat with 1%nat by lia. simpl.
  rewrite length_app, map_app. simpl.
  replace (length acc + 1)%nat with (S (length acc)) by lia.
  rewrite seq_S.
  now replace (length h0 + 2 + length acc)%nat
    with (S (S (length h0)) + length acc)%nat by lia.
Qed.

Lemma run_read {A} (get : list Store.object -> nat -> option A) (l : nat)
    (h : list Store.object) (a : A) :
  get h l = Some a -> Store.read get l h = (Ok a, h).
Proof. intros Hget. unfold Store.read. now rewrite Hget. Qed.

Lemma run_bind {A B} (m : Store.M A) (f : A -> Store.M B) (h h' : list Store.object)
    (a : A) :
  m h = (Ok a, h') -> @mbind Store.M Store.M_bind A B f m h = f a h'.
Proof. intros Hm. unfold mbind, Store.M_bind. now rewrite Hm. Qed.

Lemma run_assign_start (h0 : list Store.object) (d : Day) (acc : list TimeSlot)
    (t : time) :
  Store.assign_start (length h0) t (Store.during h0 d acc)
  = (Ok tt, Store.during h0 (set_start d t) acc).
Proof.
  unfold Store.assign_start.
  rewrite (run_bind _ _ _ _ _ (run_read _ _ _ _ (during_day h0 d acc))).
  unfold Store.write. now rewrite during_assign.
Qed.

Lemma run_body (h0 : list Store.object) (d : Day) (acc : list TimeSlot)
    (l : nat) (s : TimeSlot) :
  Store.lookup_slot h0 l = Some s ->
  Store.free_slots_body (length h0) (S (length h0)) l (Store.during h0 d acc)
  = (Ok tt, let '(d', acc') := free_slots_step (d, acc) s in Store.during h0 d' acc').
Proof.
  intros Hslot.
  assert (Hl : Store.lookup_slot (Store.during h0 d acc) l = Some s).
  { unfold Store.lookup_slot in *. rewrite during_old; [exact Hslot|].
    destruct (h0 !! l) eqn:E; [|discriminate]. now apply lookup_lt_Some in E. }
  unfold Store.free_slots_body, free_slots_step.
  rewrite (run_bind _ _ _ _ _ (run_read _ _ _ _ Hl)).
  rewrite (run_bind _ _ _ _ _ (run_read _ _ _ _ (during_day h0 d acc))).
  destruct (Day_start d =? TimeSlot_start s); [apply run_assign_start|].
  destruct (Day_start d <? TimeSlot_start s); [|reflexivity].
  erewrite run_bind by reflexivity.
  unfold Store.append at 1.
  assert (Hitems : Store.lookup_items
            (Store.during h0 d acc
             ++ [Store.OTimeSlot (mk_TimeSlot (day_id s) (Day_start d) (TimeSlot_start s))])
            (S (length h0)) = Some (seq (S (S (length h0))) (length acc))).
  { unfold Store.lookup_items. rewrite lookup_app_l by (rewrite during_length; lia).
    apply during_items. }
  erewrite run_bind.
  2:{ erewrite run_bind by (apply run_read; exact Hitems). reflexivity. }
  unfold Store.write. rewrite during_append.
  apply run_assign_start.
Qed.

Lemma run_for_each (h0 : list Store.object) (items : list nat) (busy : list TimeSlot) :
  Forall2 (fun l s => Store.lookup_slot h0 l = Some s) items busy ->
  forall d acc,
    Store.for_each items (Store.free_slots_body (length h0) (S (length h0)))
                   (Store.during h0 d acc)
    = (Ok tt, let '(d', acc') := fold_left free_slots_step busy (d, acc) in
              Store.during h0 d' acc').
Proof.
  induction 1 as [|l s items busy Hs _ IH]; intros d acc;
    cbn [Store.for_each fold_left]; [reflexivity|].
  rewrite (run_bind _ _ _ _ _ (run_body h0 d acc l s Hs)).
  destruct (free_slots_step (d, acc) s) as [d1 acc1]. apply IH.
Qed.

Lemma lookup_new_slots (pre : list Store.object) (acc : list TimeSlot)
    (post : list Store.object) :
  mapM (Store.lookup_slot (pre ++ map Store.OTimeSlot acc ++ post))
       (seq (length pre) (length acc)) = Some acc.
Proof.
  revert pre. induction acc as [|g acc IH]; intros pre; simpl; [reflexivity|].
  assert (Hhead : Store.lookup_slot
            (pre ++ Store.OTimeSlot g :: map Store.OTimeSlot acc ++ post)
            (length pre) = Some g).
  { unfold Store.lookup_slot. rewrite lookup_app_r by lia.
    now rewrite Nat.sub_diag. }
  rewrite Hhead. simpl.
  specialize (IH (pre ++ [Store.OTimeSlot g])).
  rewrite <- app_assoc in IH. simpl in IH.
  rewrite length_app in IH. simpl in IH.
  replace (length pre + 1)%nat with (S (length pre)) in IH by lia.
  now rewrite IH.
Qed.

Lemma during_slots (h0 : list Store.object) (d : Day) (acc : list TimeSlot) :
  Store.lookup_slots (Store.during h0 d acc) (S (length h0)) = Some acc.
Proof.
  unfold Store.lookup_slots. rewrite during_items. simpl.
  unfold Store.during.
  pose proof (lookup_new_slots
                (h0 ++ [Store.ODay d; Store.OList (seq (S (S (length h0))) (length acc))])
                acc []) as Hnew.
  rewrite app_nil_r, <- app_assoc, length_app in Hnew. simpl in Hnew.
  replace (length h0 + 2)%nat with (S (S (length h0))) in Hnew by lia.
  exact Hnew.
Qed.

Lemma lookup_day_app (h extra : list Store.object) (l : nat) (d : Day) :
  Store.lookup_day h l = Some d -> Store.lookup_day (h ++ extra) l = Some d.
Proof.
  unfold Store.lookup_day. destruct (h !! l) as [o|] eqn:E; [|discriminate].
  now rewrite (lookup_app_l_Some _ _ _ _ E).
Qed.

Lemma lookup_slot_app (h extra : list Store.object) (l : nat) (s : TimeSlot) :
  Store.lookup_slot h l = Some s -> Store.lookup_slot (h ++ extra) l = Some s.
Proof.
  unfold Store.lookup_slot. destruct (h !! l) as [o|] eqn:E; [|discriminate].
  now rewrite (lookup_app_l_Some _ _ _ _ E).
Qed.

Lemma lookup_slots_inv (h : list Store.object) (l : nat) (busy : list TimeSlot) :
  Store.lookup_slots h l = Some busy <->
  exists items, h !! l = Some (Store.OList items)
                /\ Forall2 (fun i s => Store.lookup_slot h i = Some s) items busy.
Proof.
  unfold Store.lookup_slots, Store.lookup_items. split.
  - destruct (h !! l) as [[| |items|]|]; simpl; try discriminate.
    intros Hm. exists items. split; [reflexivity|]. now apply mapM_Some.
  - intros (items & -> & Hall). simpl. now apply mapM_Some.
Qed.

Lemma lookup_slots_app (h extra : list Store.object) (l : nat) (busy : list TimeSlot) :
  Store.lookup_slots h l = Some busy -> Store.lookup_slots (h ++ extra) l = Some busy.
Proof.
  rewrite !lookup_slots_inv. intros (items & Hl & Hall). exists items. split.
  - now apply lookup_app_l_Some.
  - eapply Forall2_impl; [exact Hall|]. intros i s. apply lookup_slot_app.
Qed.

Lemma lookup_entry_app (h extra : list Store.object) (e : string * (nat * nat))
    (v : string * (Day * list TimeSlot)) :
  Store.lookup_entry h e = Some v -> Store.lookup_entry (h ++ extra) e = Some v.
Proof.
  unfold Store.lookup_entry.
  destruct (Store.lookup_day h _) as [d|] eqn:Hd; [|discriminate]. simpl.
  destruct (Store.lookup_slots h _) as [busy|] eqn:Hb; [|discriminate]. simpl.
  intros <-. rewrite (lookup_day_app _ extra _ _ Hd). simpl.
  now rewrite (lookup_slots_app _ extra _ _ Hb).
Qed.

Lemma lookup_schedule_inv (h : list Store.object) (l : nat) (sv : ScheduleType) :
  Store.lookup_schedule h l = Some sv <->
  exists entries, h !! l = Some (Store.ODict entries)
                  /\ Forall2 (fun e v => Store.lookup_entry h e = Some v) entries sv.
Proof.
  unfold Store.lookup_schedule, Store.lookup_entries. split.
  - destruct (h !! l) as [[| | |entries]|]; simpl; try discriminate.
    intros Hm. exists entries. split; [reflexivity|]. now apply mapM_Some.
  - intros (entries & -> & Hall). simpl. now apply mapM_Some.
Qed.

Lemma lookup_schedule_app (h extra : list Store.object) (l : nat) (sv : ScheduleType) :
  Store.lookup_schedule h l = Some sv ->
  Store.lookup_schedule (h ++ extra) l = Some sv.
Proof.
  rewrite !lookup_schedule_inv. intros (entries & Hl & Hall). exists entries. split.
  - now apply lookup_app_l_Some.
  - eapply Forall2_impl; [exact Hall|]. intros e v. apply lookup_entry_app.
Qed.

Lemma schedule_get (h : list Store.object) (entries : dict (nat * nat))
    (sv : ScheduleType) (k : string) :
  Forall2 (fun e v => Store.lookup_entry h e = Some v) entries sv ->
  match dict_get k entries with
  | None => dict_get k sv = None
  | Some (day0, busy0) =>
      exists d busy, dict_get k sv = Some (d, busy)
                     /\ Store.lookup_day h day0 = Some d
                     /\ Store.lookup_slots h busy0 = Some busy
  end.
Proof.
  induction 1 as [|[k' [day0 busy0]] v entries sv He _ IH]; simpl; [reflexivity|].
  unfold Store.lookup_entry in He. simpl in He.
  destruct (Store.lookup_day h day0) as [d|] eqn:Hd; [|discriminate]. simpl in He.
  destruct (Store.lookup_slots h busy0) as [busy|] eqn:Hb; [|discriminate].
  simpl in He. injection He as <-. simpl.
  destruct (String.eqb k k'); [|exact IH].
  exists d, busy. auto.
Qed.

Section Store_finder.

Variable strftime : date -> string.

Lemma run_free_slots_at_date (h : list Store.object) (schedule : nat)
    (date_key : date) (sv : ScheduleType) :
  Store.lookup_schedule h schedule = Some sv ->
  exists l extra,
    Store.free_slots_at_date strftime schedule date_key h = (Ok l, h ++ extra)
    /\ Store.lookup_slots (h ++ extra) l
       = Some (free_slots_at_date strftime sv date_key).
Proof.
  intros Hsv.
  destruct (proj1 (lookup_schedule_inv _ _ _) Hsv) as (entries & Hl & Hall).
  pose proof (schedule_get h entries sv (strftime date_key) Hall) as Hget.
  unfold Store.free_slots_at_date, free_slots_at_date.
  erewrite run_bind by (unfold Store.validate_python; rewrite Hsv; reflexivity).
  erewrite run_bind
    by (apply run_read; unfold Store.lookup_entries; rewrite Hl; reflexivity).
  destruct (dict_get (strftime date_key) entries) as [[day0 busy0]|].
  - destruct Hget as (d & busy & -> & Hd & Hb).
    apply lookup_slots_inv in Hb as (items & Hitems & Hslots).
    erewrite run_bind by (apply run_read; exact Hd).
    erewrite run_bind by reflexivity.
    erewrite run_bind by reflexivity.
    change ((h ++ [Store.ODay d]) ++ [Store.OList []])
      with ((h ++ [Store.ODay d]) ++ [Store.OList (seq (S (S (length h))) 0)]).
    rewrite <- app_assoc. change (h ++ [Store.ODay d] ++ [Store.OList (seq (S (S (length h))) 0)])
      with (Store.during h d []).
    replace (length (h ++ [Store.ODay d])) with (S (length h))
      by (rewrite length_app; simpl; lia).
    erewrite run_bind.
    2:{ apply run_read. unfold Store.lookup_items.
        rewrite during_old by (now apply lookup_lt_Some in Hitems).
        rewrite Hitems. reflexivity. }
    erewrite run_bind by (apply run_for_each; exact Hslots).
    destruct (fold_left free_slots_step busy (d, [])) as [d' acc'].
    erewrite run_bind by (apply run_read; apply during_day).
    unfold free_slots_finish.
    destruct (negb (Day_start d' =? Day_end d')).
    + erewrite run_bind.
      2:{ erewrite run_bind by reflexivity.
          unfold Store.append.
          erewrite run_bind.
          2:{ apply run_read. unfold Store.lookup_items.
              rewrite lookup_app_l by (rewrite during_length; lia).
              apply during_items. }
          unfold Store.write. rewrite during_append. reflexivity. }
      exists (S (length h)), (Store.ODay d'
               :: Store.OList (seq (S (S (length h))) (length (acc' ++ [mk_TimeSlot (Day_id d') (Day_start d') (Day_end d')])))
               :: map Store.OTimeSlot (acc' ++ [mk_TimeSlot (Day_id d') (Day_start d') (Day_end d')])).
      split; [reflexivity|]. apply during_slots.
    + erewrite run_bind by reflexivity.
      exists (S (length h)), (Store.ODay d'
               :: Store.OList (seq (S (S (length h))) (length acc'))
               :: map Store.OTimeSlot acc').
      split; [reflexivity|]. apply during_slots.
  - rewrite Hget. exists (length h), [Store.OList []]. split; [reflexivity|].
    apply lookup_slots_inv. exists []. split; [|constructor].
    rewrite lookup_app_r by lia. now rewrite Nat.sub_diag.
Qed.

Lemma run_free_slots_at_date_invalid (h : list Store.object) (schedule : nat)
    (date_key : date) :
  Store.lookup_schedule h schedule = None ->
  Store.free_slots_at_date strftime schedule date_key h
  = (Raise (mk_exn ValidationError "validation error for dict"), h).
Proof.
  intros Hsv. unfold Store.free_slots_at_date, mbind, Store.M_bind,
    Store.validate_python. now rewrite Hsv.
Qed.

End Store_finder.

Section Store_purity.

Variable strftime : date -> string.

Lemma outcome_of_schedule (h : list Store.object) (schedule : nat)
    (date_key : date) :
  Store.outcome (Store.free_slots_at_date strftime schedule date_key h)
  = match Store.lookup_schedule h schedule with
    | Some sv => inl (Some (free_slots_at_date strftime sv date_key))
    | None => inr (mk_exn ValidationError "validation error for dict")
    end.
Proof.
  destruct (Store.lookup_schedule h schedule) as [sv|] eqn:Hsv.
  - destruct (run_free_slots_at_date strftime h schedule date_key sv Hsv)
      as (l & extra & -> & Hl).
    unfold Store.outcome. simpl. now rewrite Hl.
  - now rewrite run_free_slots_at_date_invalid.
Qed.

(** C8: a call of [free_slots_at_date] only adds objects to the store: the
    [dict], every [Day], every busy list and every [TimeSlot] that were
    there are the same after the call, and so is the schedule they make up.
    What the call returns is decided by the value of the schedule and the
    date: a second call gives the same time slots (or the same exception)
    as the first, and so does a call on any store that holds the same
    schedule. *)
Theorem free_slots_at_date_is_pure (h : list Store.object) (schedule : nat)
    (date_key : date) :
  let first := Store.free_slots_at_date strftime schedule date_key h in
  let second := Store.free_slots_at_date strftime schedule date_key (snd first) in
  (exists extra, snd first = h ++ extra)
  /\ (forall l o, h !! l = Some o -> snd first !! l = Some o)
  /\ Store.lookup_schedule (snd first) schedule = Store.lookup_schedule h schedule
  /\ Store.outcome second = Store.outcome first
  /\ (forall h' schedule',
        Store.lookup_schedule h' schedule' = Store.lookup_schedule h schedule ->
        Store.outcome (Store.free_slots_at_date strftime schedule' date_key h')
        = Store.outcome first).
Proof.
  intros first second.
  assert (Hext : exists extra, snd first = h ++ extra).
  { subst first. destruct (Store.lookup_schedule h schedule) as [sv|] eqn:Hsv.
    - destruct (run_free_slots_at_date strftime h schedule date_key sv Hsv)
        as (l & extra & -> & _). now exists extra.
    - rewrite run_free_slots_at_date_invalid by exact Hsv.
      exists []. simpl. now rewrite app_nil_r. }
  assert (Hsame : Store.lookup_schedule (snd first) schedule
                  = Store.lookup_schedule h schedule).
  { subst first. destruct (Store.lookup_schedule h schedule) as [sv|] eqn:Hsv.
    - destruct Hext as (extra & ->). now apply lookup_schedule_app.
    - rewrite run_free_slots_at_date_invalid by exact Hsv. exact Hsv. }
  split; [exact Hext|]. split; [|split; [exact Hsame|split]].
  - destruct Hext as (extra & ->). intros l o Hl. now apply lookup_app_l_Some.
  - subst second first. rewrite (outcome_of_schedule h), outcome_of_schedule.
    now rewrite Hsame.
  - intros h' schedule' Heq. subst first.
    rewrite (outcome_of_schedule h), outcome_of_schedule. now rewrite Heq.
Qed.

End Store_purity.

(** ** The duration filter returns *)

Section Duration_filter_returns.

Variable strftime : date -> string.
Variable strptime : string -> result date.

Lemma find_suitable_loop_returns (schedule : ScheduleType) (duration : timedelta)
    (ks : list string) :
  (forall k, In k ks -> In k (keys schedule) /\ exists d, strptime k = Ok d) ->
  forall acc,
    exists res,
      find_suitable_loop strftime strptime schedule duration ks acc = Ok res.
Proof.
  induction ks as [|key rest IH]; intros Hks acc; simpl; [now exists acc|].
  destruct (Hks key (or_introl eq_refl)) as [Hkey (_date & Hparse)].
  assert (Hstep : exists acc',
            find_suitable_step strftime strptime schedule duration acc key = Ok acc').
  { unfold find_suitable_step.
    rewrite Hparse. simpl.
    destruct (List.filter _ _) as [|x xs]; [now exists acc|].
    destruct (dict_get key schedule) as [[d busy]|] eqn:Hget; [eauto|].
    apply dict_get_keys in Hget. contradiction. }
  destruct Hstep as (acc' & ->). simpl. apply IH.
  intros k Hk. apply Hks. now right.
Qed.

(** With a positive duration and keys that [strptime] accepts, the duration
    filter returns a schedule: the theorems on its result are about
    something. *)
Lemma find_suitable_slot_returns (schedule : ScheduleType) (duration : timedelta) :
  0 < duration ->
  (forall k, In k (keys schedule) -> exists d, strptime k = Ok d) ->
  exists res, find_suitable_slot strftime strptime schedule duration = Ok res.
Proof.
  intros Hpos Hparse. unfold find_suitable_slot, total_seconds_nonpos.
  destruct (Z.leb_spec duration 0) as [Hle|_]; [lia|].
  apply find_suitable_loop_returns. intros k Hk. split; [exact Hk|now apply Hparse].
Qed.

End Duration_filter_returns.

(** ** The examples of the specification and of the tests *)

Example free_slots_day_1 :
  free_slots_at_date iso_strftime formatted_schedule (mk_date 2024 10 10)
  = [mk_TimeSlot 1 (hm 9 0) (hm 11 0); mk_TimeSlot 1 (hm 12 0) (hm 18 0)].
Proof. reflexivity. Qed.

Example free_slots_day_2 :
  free_slots_at_date iso_strftime formatted_schedule (mk_date 2024 10 11)
  = [mk_TimeSlot 2 (hm 8 0) (hm 9 30); mk_TimeSlot 2 (hm 16 0) (hm 17 0)].
Proof. reflexivity. Qed.

Example suitable_one_hour :
  find_suitable_slot iso_strftime iso_strptime formatted_schedule (hm 1 0)
  = Ok [("2024-10-10"%string,
         (day_1, [mk_TimeSlot 1 (hm 9 0) (hm 11 0); mk_TimeSlot 1 (hm 12 0) (hm 18 0)]));
        ("2024-10-11"%string,
         (day_2, [mk_TimeSlot 2 (hm 8 0) (hm 9 30); mk_TimeSlot 2 (hm 16 0) (hm 17 0)]))].
Proof. reflexivity. Qed.

Example suitable_two_hours :
  find_suitable_slot iso_strftime iso_strptime formatted_schedule (hm 2 0)
  = Ok [("2024-10-10"%string,
         (day_1, [mk_TimeSlot 1 (hm 9 0) (hm 11 0); mk_TimeSlot 1 (hm 12 0) (hm 18 0)]))].
Proof. reflexivity. Qed.

Example suitable_ten_hours :
  find_suitable_slot iso_strftime iso_strptime formatted_schedule (hm 10 0) = Ok [].
Proof. reflexivity. Qed.

Example schedulable_afternoon :
  can_schedule_slot (mk_Slot (mk_date 2024 10 10) (hm 14 0) (hm 15 0))
    [mk_TimeSlot 1 (hm 12 0) (hm 18 0)] = true.
Proof. reflexivity. Qed.

Example not_schedulable_when_busy :
  can_schedule_slot (mk_Slot (mk_date 2024 10 10) (hm 11 0) (hm 12 0))
    (free_slots_at_date iso_strftime formatted_schedule (mk_date 2024 10 10)) = false.
Proof. reflexivity. Qed.

Example time_diff_of_test : time_diff (hm 14 30) (hm 12 15) = hm 2 15.
Proof. reflexivity. Qed.

Example store_holds_formatted_schedule :
  Store.lookup_schedule formatted_store 6%nat = Some formatted_schedule.
Proof. reflexivity. Qed.

Example store_call_on_day_1 :
  Store.outcome
    (Store.free_slots_at_date iso_strftime 6%nat (mk_date 2024 10 10) formatted_store)
  = inl (Some [mk_TimeSlot 1 (hm 9 0) (hm 11 0); mk_TimeSlot 1 (hm 12 0) (hm 18 0)]).
Proof. reflexivity. Qed.

(** ** The properties on the schedule of the test suite *)

Lemma apart_no_overlap (a b : TimeSlot) :
  TimeSlot_end a <= TimeSlot_start b -> ~ overlap a b.
Proof.
  intros Hab (t & Hta & Htb). rewrite at_instant_spec in Hta, Htb. lia.
Qed.

Lemma busy_1_ok : busy_ok day_1 busy_1.
Proof.
  constructor; repeat constructor; simpl; unfold hm; lia.
Qed.

Lemma busy_3_ok : busy_ok day_3 busy_3.
Proof.
  constructor; repeat constructor; simpl; unfold hm; try lia.
  apply apart_no_overlap. simpl. unfold hm. lia.
Qed.

Lemma free_slots_tile_window_witness :
  let free := free_slots_at_date iso_strftime formatted_schedule (mk_date 2024 10 10) in
  (forall t, Day_start day_1 <= t < Day_end day_1 -> covering t (free ++ busy_1) = 1%nat)
  /\ (forall t, ~ Day_start day_1 <= t < Day_end day_1 -> covering t (free ++ busy_1) = 0%nat)
  /\ Forall (fun f => TimeSlot_start f < TimeSlot_end f) free
  /\ ForallOrdPairs (fun a b => TimeSlot_end a <= TimeSlot_start b) free
  /\ ForallOrdPairs (fun a b => ~ overlap a b) free
  /\ (forall f b, In f free -> In b busy_1 -> ~ overlap f b).
Proof.
  apply (free_slots_tile_window iso_strftime formatted_schedule
           (mk_date 2024 10 10) day_1 busy_1).
  - reflexivity.
  - reflexivity.
  - exact busy_1_ok.
Defined.

Lemma free_slots_of_empty_day_witness :
  (Day_start day_4 <> Day_end day_4 ->
     free_slots_at_date iso_strftime booked_schedule (mk_date 2024 10 13)
     = [mk_TimeSlot (Day_id day_4) (Day_start day_4) (Day_end day_4)])
  /\ (Day_start day_4 = Day_end day_4 ->
        free_slots_at_date iso_strftime booked_schedule (mk_date 2024 10 13) = []).
Proof.
  apply (free_slots_of_empty_day iso_strftime booked_schedule
           (mk_date 2024 10 13) day_4).
  reflexivity.
Defined.

Lemma free_slots_empty_iff_fully_booked_witness :
  free_slots_at_date iso_strftime booked_schedule (mk_date 2024 10 12) = []
  <-> fully_booked (Day_start day_3) (Day_end day_3) busy_3.
Proof.
  apply (free_slots_empty_iff_fully_booked iso_strftime booked_schedule
           (mk_date 2024 10 12) day_3 busy_3).
  - reflexivity.
  - exact busy_3_ok.
Defined.

(** C3 as stated fails: a day booked from start to end by two intervals has
    no free slot, and its busy list is not a single interval. *)
Lemma free_slots_empty_without_single_interval :
  ~ (forall (schedule : ScheduleType) (date_key : date) (d : Day)
            (busy : list TimeSlot),
       dict_get (iso_strftime date_key) schedule = Some (d, busy) ->
       busy_ok d busy ->
       free_slots_at_date iso_strftime schedule date_key = []
       <-> exists s, busy = [s] /\ TimeSlot_start s = Day_start d
                     /\ TimeSlot_end s = Day_end d).
Proof.
  intros Hall.
  destruct (Hall booked_schedule (mk_date 2024 10 12) day_3 busy_3
                 eq_refl busy_3_ok) as [Honly _].
  destruct (Honly eq_refl) as (s & Hsingle & _).
  discriminate Hsingle.
Qed.

Lemma find_suitable_slot_meets_duration_witness :
  (forall key d intervals,
     In (key, (d, intervals))
        [("2024-10-10"%string,
          (day_1, [mk_TimeSlot 1 (hm 9 0) (hm 11 0); mk_TimeSlot 1 (hm 12 0) (hm 18 0)]))] ->
     intervals <> []
     /\ Forall (fun x => hm 2 0 <= time_diff (TimeSlot_end x) (TimeSlot_start x))
               intervals)
  /\ (forall key _date,
        iso_strptime key = Ok _date ->
        Forall (fun x => time_diff (TimeSlot_end x) (TimeSlot_start x) < hm 2 0)
               (free_slots_at_date iso_strftime formatted_schedule _date) ->
        ~ In key (keys [("2024-10-10"%string,
          (day_1, [mk_TimeSlot 1 (hm 9 0) (hm 11 0); mk_TimeSlot 1 (hm 12 0) (hm 18 0)]))])).
Proof.
  apply (find_suitable_slot_meets_duration iso_strftime iso_strptime
           formatted_schedule (hm 2 0)).
  reflexivity.
Defined.

Lemma find_suitable_slot_rejects_duration_witness :
  find_suitable_slot iso_strftime iso_strptime formatted_schedule (-1000000)
  = Raise (mk_exn ValueError "Invalid duration. Must be a positive timedelta.").
Proof.
  apply (find_suitable_slot_rejects_duration iso_strftime iso_strptime
           formatted_schedule (-1000000)).
  lia.
Defined.

Lemma can_schedule_slot_iff_witness :
  can_schedule_slot (mk_Slot (mk_date 2024 10 10) (hm 12 0) (hm 18 0))
    [mk_TimeSlot 1 (hm 9 0) (hm 11 0); mk_TimeSlot 1 (hm 12 0) (hm 18 0)] = true.
Proof.
  apply (can_schedule_slot_iff
           (mk_Slot (mk_date 2024 10 10) (hm 12 0) (hm 18 0))
           [mk_TimeSlot 1 (hm 9 0) (hm 11 0); mk_TimeSlot 1 (hm 12 0) (hm 18 0)]).
  exists (mk_TimeSlot 1 (hm 12 0) (hm 18 0)). simpl. unfold hm.
  split; [right; left; reflexivity|lia].
Defined.

Lemma find_suitable_slot_keeps_order_witness :
  let res := [("2024-10-10"%string,
          (day_1, [mk_TimeSlot 1 (hm 9 0) (hm 11 0); mk_TimeSlot 1 (hm 12 0) (hm 18 0)]))] in
  sublist (keys res) (keys formatted_schedule)
  /\ (forall key d intervals,
        In (key, (d, intervals)) res ->
        exists _date,
          iso_strptime key = Ok _date
          /\ intervals = List.filter (fits (hm 2 0))
                           (free_slots_at_date iso_strftime formatted_schedule _date)
          /\ sublist intervals (free_slots_at_date iso_strftime formatted_schedule _date)).
Proof.
  apply (find_suitable_slot_keeps_order iso_strftime iso_strptime
           formatted_schedule (hm 2 0)).
  - unfold dict_ok. simpl. repeat constructor; simpl; intuition discriminate.
  - reflexivity.
Defined.

Lemma free_slots_at_date_is_pure_witness :
  Store.outcome
    (Store.free_slots_at_date iso_strftime 6%nat (mk_date 2024 10 10)
       (snd (Store.free_slots_at_date iso_strftime 6%nat (mk_date 2024 10 10)
               formatted_store)))
  = Store.outcome
      (Store.free_slots_at_date iso_strftime 6%nat (mk_date 2024 10 10)
         formatted_store).
Proof.
  exact (proj1 (proj2 (proj2 (proj2
           (free_slots_at_date_is_pure iso_strftime formatted_store 6%nat
              (mk_date 2024 10 10)))))).
Defined.

Lemma exception_handler_reports_witness :
  exception_handler
    (fun (_ : unit) (out : stdout) =>
       (@Raise unit (mk_exn ZeroDivisionError "division by zero"), out)) tt []
  = (Ok None, ["ERROR: division by zero"%string]).
Proof.
  exact (proj1 (exception_handler_reports
           (fun (_ : unit) (out : stdout) =>
              (@Raise unit (mk_exn ZeroDivisionError "division by zero"), out))
           tt [])
           (mk_exn ZeroDivisionError "division by zero") [] eq_refl eq_refl).
Defined.

Lemma free_slots_unknown_date_witness :
  free_slots_at_date iso_strftime formatted_schedule (mk_date 2024 12 31) = [].
Proof.
  exact (proj1 (free_slots_unknown_date iso_strftime formatted_schedule
                  (mk_date 2024 12 31)) eq_refl).
Defined.

(** * More of the code: the feed, the display, the services *)

(** ** Sorting *)

Section Sorting.

Context {A K : Type} (leb : K -> K -> bool) (key : A -> K).

Lemma insert_by_perm (x : A) (l : list A) :
  Permutation (insert_by leb key x l) (x :: l).
Proof.
  induction l as [|y rest IH]; simpl; [reflexivity|].
  destruct (leb (key x) (key y)); [reflexivity|].
  rewrite IH. apply perm_swap.
Qed.

Lemma sorted_by_perm (l : list A) : Permutation (sorted_by leb key l) l.
Proof.
  induction l as [|x rest IH]; simpl; [reflexivity|].
  rewrite insert_by_perm. now constructor.
Qed.

Hypothesis leb_total : forall a b, leb a b = true \/ leb b a = true.
Hypothesis leb_trans : forall a b c, leb a b = true -> leb b c = true -> leb a c = true.

Lemma insert_by_sorted (x : A) (l : list A) :
  ForallOrdPairs (fun a b => leb (key a) (key b) = true) l ->
  ForallOrdPairs (fun a b => leb (key a) (key b) = true) (insert_by leb key x l).
Proof.
  induction 1 as [|y rest Hy Hrest IH]; simpl; [repeat constructor|].
  destruct (leb (key x) (key y)) eqn:Hxy.
  - constructor; [|now constructor].
    constructor; [exact Hxy|].
    eapply List.Forall_impl; [|exact Hy]. simpl. intros b. now apply leb_trans.
  - constructor; [|exact IH].
    assert (Hyx : leb (key y) (key x) = true)
      by (destruct (leb_total (key x) (key y)); congruence).
    rewrite List.Forall_forall in *. intros b Hb.
    apply (Permutation_in _ (insert_by_perm x rest)) in Hb as [<-|Hb];
      [exact Hyx|now apply Hy].
Qed.

Lemma sorted_by_sorted (l : list A) :
  ForallOrdPairs (fun a b => leb (key a) (key b) = true) (sorted_by leb key l).
Proof.
  induction l as [|x rest IH]; simpl; [constructor|]. now apply insert_by_sorted.
Qed.

End Sorting.

Lemma date_leb_total (a b : date) : date_leb a b = true \/ date_leb b a = true.
Proof.
  unfold date_leb.
  destruct (Z.ltb_spec (date_year a) (date_year b)),
           (Z.ltb_spec (date_year b) (date_year a)),
           (Z.eqb_spec (date_year a) (date_year b)),
           (Z.eqb_spec (date_year b) (date_year a)),
           (Z.ltb_spec (date_month a) (date_month b)),
           (Z.ltb_spec (date_month b) (date_month a)),
           (Z.eqb_spec (date_month a) (date_month b)),
           (Z.eqb_spec (date_month b) (date_month a)),
           (Z.leb_spec (date_day a) (date_day b)),
           (Z.leb_spec (date_day b) (date_day a)); simpl; try lia; auto.
Qed.

Lemma date_leb_spec (a b : date) :
  date_leb a b = true <->
  date_year a < date_year b
  \/ (date_year a = date_year b
      /\ (date_month a < date_month b
          \/ (date_month a = date_month b /\ date_day a <= date_day b))).
Proof.
  unfold date_leb.
  rewrite !orb_true_iff, !andb_true_iff, !orb_true_iff, !andb_true_iff,
    !Z.ltb_lt, !Z.eqb_eq, Z.leb_le. tauto.
Qed.

Lemma date_leb_trans (a b c : date) :
  date_leb a b = true -> date_leb b c = true -> date_leb a c = true.
Proof. rewrite !date_leb_spec. lia. Qed.

Lemma Z_leb_total (a b : Z) : (a <=? b) = true \/ (b <=? a) = true.
Proof. rewrite !Z.leb_le. lia. Qed.

Lemma Z_leb_trans (a b c : Z) :
  (a <=? b) = true -> (b <=? c) = true -> (a <=? c) = true.
Proof. rewrite !Z.leb_le. lia. Qed.

(** ** Assignment to a dictionary *)

Lemma dict_set_keys {V} (k : string) (v : V) (d : dict V) :
  keys (dict_set k v d)
  = match dict_get k d with Some _ => keys d | None => keys d ++ [k] end.
Proof.
  induction d as [|[k' v'] rest IH]; simpl; [reflexivity|].
  destruct (String.eqb_spec k k') as [->|Hne]; simpl; [reflexivity|].
  rewrite IH. now destruct (dict_get k rest).
Qed.

Lemma dict_set_ok {V} (k : string) (v : V) (d : dict V) :
  dict_ok d -> dict_ok (dict_set k v d).
Proof.
  unfold dict_ok. rewrite dict_set_keys.
  destruct (dict_get k d) eqn:Hget; [tauto|].
  intros Hnd. apply dict_get_keys in Hget.
  apply List.NoDup_app; [exact Hnd|repeat constructor; simpl; tauto|].
  intros x Hx [<-|[]]. contradiction.
Qed.

Lemma dict_get_set {V} (k k' : string) (v : V) (d : dict V) :
  dict_get k' (dict_set k v d) = if String.eqb k' k then Some v else dict_get k' d.
Proof.
  induction d as [|[k0 v0] rest IH]; simpl.
  - reflexivity.
  - destruct (String.eqb_spec k k0) as [->|Hne]; simpl.
    + now destruct (String.eqb k' k0).
    + rewrite IH. destruct (String.eqb_spec k' k0) as [->|Hne'];
        [|reflexivity].
      destruct (String.eqb_spec k0 k); [congruence|reflexivity].
Qed.

(** ** [format_data] *)

Section Format_data_properties.

Variable strftime : date -> string.

Lemma format_days_entries (raw_data : RawTimeData) (ds : list Day) :
  forall data,
    (forall d, In d ds -> In d (days raw_data)) ->
    Forall (entry_of_feed strftime raw_data) data ->
    Forall (entry_of_feed strftime raw_data) (fold_left (format_day strftime raw_data) ds data).
Proof.
  induction ds as [|day rest IH]; intros data Hds Hdata; simpl; [exact Hdata|].
  apply IH; [intros d Hd; apply Hds; now right|].
  rewrite List.Forall_forall in *. intros e He.
  apply dict_set_In in He as [->|He]; [|now apply Hdata].
  repeat split. simpl. apply Hds. now left.
Qed.

Lemma format_data_entries (raw_data : RawTimeData) :
  Forall (entry_of_feed strftime raw_data) (format_data strftime raw_data).
Proof.
  unfold format_data. apply format_days_entries; [|constructor].
  intros d Hd. now apply (Permutation_in _ (sorted_by_perm date_leb Day_date _)).
Qed.

Lemma format_days_ok (raw_data : RawTimeData) (ds : list Day) :
  forall data, dict_ok data -> dict_ok (fold_left (format_day strftime raw_data) ds data).
Proof.
  induction ds as [|day rest IH]; intros data Hok; simpl; [exact Hok|].
  apply IH. now apply dict_set_ok.
Qed.

End Format_data_properties.

Section Format_data_theorems.

Variable strftime : date -> string.

(** X1: the keys of the schedule made by [format_data] are pairwise
    different, whatever the feed. *)
Theorem format_data_keys_distinct (raw_data : RawTimeData) :
  dict_ok (format_data strftime raw_data).
Proof. unfold format_data. apply format_days_ok. constructor. Qed.

Lemma ForallOrdPairs_map {X Y} (f : X -> Y) (R : Y -> Y -> Prop) (l : list X) :
  ForallOrdPairs (fun a b => R (f a) (f b)) l -> ForallOrdPairs R (map f l).
Proof.
  induction 1 as [|x l Hx _ IH]; simpl; constructor; [|exact IH].
  rewrite List.Forall_forall in *. intros y Hy.
  apply List.in_map_iff in Hy as (a & <- & Ha). now apply Hx.
Qed.

Lemma slots_of_day_sorted (raw_data : RawTimeData) (d : Day) :
  ForallOrdPairs (fun a b => TimeSlot_start a <= TimeSlot_start b)
                 (slots_of_day raw_data d).
Proof.
  unfold slots_of_day. apply ForallOrdPairs_map. simpl.
  pose proof (sorted_by_sorted Z.leb RawTimeSlot_start Z_leb_total Z_leb_trans
                (List.filter (fun x => RawTimeSlot_day_id x =? Day_id d)
                             (timeslots raw_data))) as Hs.
  induction Hs as [|x l Hx _ IH]; constructor; [|exact IH].
  eapply List.Forall_impl; [|exact Hx]. simpl. intros b. apply Z.leb_le.
Qed.

Lemma slots_of_day_perm (raw_data : RawTimeData) (d : Day) :
  Permutation (slots_of_day raw_data d) (feed_slots_of_day raw_data d).
Proof.
  unfold slots_of_day, feed_slots_of_day. apply Permutation_map, sorted_by_perm.
Qed.


(** X3: every entry of the schedule made by [format_data] is a day of the
    feed under the key of its date, and its busy list holds the time slots
    of the feed whose [day_id] is the [id] of that day, each as often as the
    feed has it, and no other. *)
Theorem format_data_keeps_slots (raw_data : RawTimeData) (key : string)
    (d : Day) (busy : list TimeSlot) :
  In (key, (d, busy)) (format_data strftime raw_data) ->
  In d (days raw_data)
  /\ key = strftime (Day_date d)
  /\ Permutation busy (feed_slots_of_day raw_data d)
  /\ Forall (fun s => day_id s = Day_id d) busy.
Proof.
  intros Hin. pose proof (format_data_entries strftime raw_data) as Hall.
  rewrite List.Forall_forall in Hall.
  destruct (Hall _ Hin) as (Hd & Hkey & Hbusy). simpl in *. subst busy.
  repeat split; try assumption.
  - apply slots_of_day_perm.
  - apply (Permutation_Forall (Permutation_sym (slots_of_day_perm raw_data d))).
    unfold feed_slots_of_day. rewrite List.Forall_forall. intros s Hs.
    apply List.in_map_iff in Hs as (x & <- & Hx).
    apply List.filter_In in Hx as [_ Hid]. simpl. now apply Z.eqb_eq in Hid.
Qed.

End Format_data_theorems.

Section Format_data_distinct_dates.

Variable strftime : date -> string.

Lemma format_days_fresh (raw_data : RawTimeData) (ds : list Day) :
  forall data,
    List.NoDup (map (fun d => strftime (Day_date d)) ds) ->
    (forall d, In d ds -> ~ In (strftime (Day_date d)) (keys data)) ->
    fold_left (format_day strftime raw_data) ds data
    = data ++ map (fun d => (strftime (Day_date d), (d, slots_of_day raw_data d))) ds.
Proof.
  induction ds as [|day rest IH]; intros data Hnd Hfresh; simpl.
  - now rewrite app_nil_r.
  - apply List.NoDup_cons_iff in Hnd as [Hday Hnd].
    unfold format_day at 2. rewrite dict_set_fresh by (apply Hfresh; now left).
    rewrite IH; [now rewrite <- app_assoc|exact Hnd|].
    intros d Hd. unfold keys. rewrite map_app, in_app_iff. simpl.
    intros [Hin|[Heq|[]]].
    + apply (Hfresh d); [now right|exact Hin].
    + apply Hday. rewrite Heq. apply List.in_map_iff. now exists d.
Qed.

Lemma format_data_closed (raw_data : RawTimeData) :
  List.NoDup (map (fun d => strftime (Day_date d)) (days raw_data)) ->
  format_data strftime raw_data
  = map (fun d => (strftime (Day_date d), (d, slots_of_day raw_data d)))
        (sorted_by date_leb Day_date (days raw_data)).
Proof.
  intros Hnd. unfold format_data. rewrite format_days_fresh; [reflexivity| |].
  - eapply Permutation_NoDup; [|exact Hnd].
    apply Permutation_map, Permutation_sym, sorted_by_perm.
  - intros d _ [].
Qed.

Lemma format_data_get (raw_data : RawTimeData) (d : Day) :
  List.NoDup (map (fun d => strftime (Day_date d)) (days raw_data)) ->
  In d (days raw_data) ->
  dict_get (strftime (Day_date d)) (format_data strftime raw_data)
  = Some (d, slots_of_day raw_data d).
Proof.
  intros Hnd Hd. apply dict_get_ok.
  - unfold format_data. apply format_days_ok. constructor.
  - rewrite format_data_closed by exact Hnd.
    apply List.in_map_iff. exists d. split; [reflexivity|].
    now apply (Permutation_in _ (Permutation_sym (sorted_by_perm date_leb Day_date _))).
Qed.

(** X4: when the days of the feed have pairwise different date keys, the
    schedule made by [format_data] gives, under the key of each day of the
    feed, that day with its time slots sorted by start. *)
Theorem format_data_lookup (raw_data : RawTimeData) (d : Day) :
  List.NoDup (map (fun d => strftime (Day_date d)) (days raw_data)) ->
  In d (days raw_data) ->
  dict_get (strftime (Day_date d)) (format_data strftime raw_data)
  = Some (d, slots_of_day raw_data d).
Proof. apply format_data_get. Qed.

(** X5: when the days of the feed have pairwise different date keys, the
    days of the schedule made by [format_data] are the days of the feed in
    ascending order of date: none is lost and an earlier date comes
    first. *)
Theorem format_data_days_ascending (raw_data : RawTimeData) :
  List.NoDup (map (fun d => strftime (Day_date d)) (days raw_data)) ->
  let schedule_days := map (fun e => fst (snd e)) (format_data strftime raw_data) in
  Permutation schedule_days (days raw_data)
  /\ ForallOrdPairs (fun a b => date_leb (Day_date a) (Day_date b) = true)
                    schedule_days.
Proof.
  intros Hnd schedule_days. subst schedule_days.
  rewrite format_data_closed by exact Hnd. rewrite List.map_map. simpl.
  rewrite List.map_id. split.
  - apply sorted_by_perm.
  - apply sorted_by_sorted; [exact date_leb_total|exact date_leb_trans].
Qed.

End Format_data_distinct_dates.

(** ** From the feed to the free slots *)

Lemma ForallOrdPairs_perm {X} (R : X -> X -> Prop) (l l' : list X) :
  (forall a b, R a b -> R b a) ->
  Permutation l l' -> ForallOrdPairs R l -> ForallOrdPairs R l'.
Proof.
  intros Hsym. induction 1 as [|x l l' Hp IH|x y l|l l' l'' _ IH1 _ IH2];
    intros Hl.
  - exact Hl.
  - inversion Hl as [|? ? Hx Hrest]; subst. constructor; [|now apply IH].
    now apply (Permutation_Forall Hp).
  - inversion Hl as [|? ? Hy Hrest]; subst.
    inversion Hrest as [|? ? Hx Hrest']; subst.
    inversion Hy as [|? ? Hyx Hyl]; subst.
    constructor; [constructor; [now apply Hsym|exact Hx]|].
    now constructor.
  - auto.
Qed.

Lemma covering_perm (t : time) (l l' : list TimeSlot) :
  Permutation l l' -> covering t l = covering t l'.
Proof.
  induction 1 as [|x l l' _ IH|x y l|l l' l'' _ IH1 _ IH2].
  - reflexivity.
  - rewrite !covering_cons. lia.
  - rewrite !covering_cons. lia.
  - congruence.
Qed.

Lemma overlap_sym (a b : TimeSlot) : ~ overlap a b -> ~ overlap b a.
Proof. intros Hab (t & Hb & Ha). apply Hab. now exists t. Qed.

Section Feed_to_free_slots.

Variable strftime : date -> string.

Lemma slots_of_day_ok (raw_data : RawTimeData) (d : Day) :
  Forall (fun s => TimeSlot_start s < TimeSlot_end s) (feed_slots_of_day raw_data d) ->
  Forall (fun s => Day_start d <= TimeSlot_start s /\ TimeSlot_end s <= Day_end d)
         (feed_slots_of_day raw_data d) ->
  ForallOrdPairs (fun a b => ~ overlap a b) (feed_slots_of_day raw_data d) ->
  busy_ok d (slots_of_day raw_data d).
Proof.
  intros Hproper Hwithin Hdisjoint.
  pose proof (Permutation_sym (slots_of_day_perm raw_data d)) as Hperm.
  constructor.
  - exact (Permutation_Forall Hperm Hproper).
  - exact (Permutation_Forall Hperm Hwithin).
  - apply slots_of_day_sorted.
  - exact (ForallOrdPairs_perm _ _ _ overlap_sym Hperm Hdisjoint).
Qed.

(** X6: from the feed to the free slots.  Take a feed whose days have
    pairwise different date keys, and a day of it with [start < end] whose
    time slots, in whatever order the feed lists them, are intervals with
    [start < end] inside the window of the day, no two overlapping.  Then
    the free slots that [free_slots_at_date] finds in the schedule made by
    [format_data], together with these time slots, tile the window: an
    instant of the window lies in exactly one of them, an instant outside in
    none, and the free slots come in order, apart from each other and from
    every time slot of the feed. *)
Theorem feed_free_slots_tile_window (raw_data : RawTimeData) (d : Day) :
  List.NoDup (map (fun d => strftime (Day_date d)) (days raw_data)) ->
  In d (days raw_data) ->
  Day_start d < Day_end d ->
  Forall (fun s => TimeSlot_start s < TimeSlot_end s) (feed_slots_of_day raw_data d) ->
  Forall (fun s => Day_start d <= TimeSlot_start s /\ TimeSlot_end s <= Day_end d)
         (feed_slots_of_day raw_data d) ->
  ForallOrdPairs (fun a b => ~ overlap a b) (feed_slots_of_day raw_data d) ->
  let free := free_slots_at_date strftime (format_data strftime raw_data) (Day_date d) in
  let busy := feed_slots_of_day raw_data d in
  (forall t, Day_start d <= t < Day_end d -> covering t (free ++ busy) = 1%nat)
  /\ (forall t, ~ Day_start d <= t < Day_end d -> covering t (free ++ busy) = 0%nat)
  /\ ForallOrdPairs (fun a b => TimeSlot_end a <= TimeSlot_start b) free
  /\ (forall f b, In f free -> In b busy -> ~ overlap f b).
Proof.
  intros Hnd Hd Hday Hproper Hwithin Hdisjoint free busy. subst free busy.
  pose proof (slots_of_day_ok raw_data d Hproper Hwithin Hdisjoint) as Hok.
  pose proof (slots_of_day_perm raw_data d) as Hperm.
  rewrite (free_slots_known strftime _ _ _ _ (format_data_get strftime raw_data d Hnd Hd)).
  assert (Hl := busy_ok_lined_up _ _ Hok).
  assert (Hstop : Forall (fun s => TimeSlot_end s <= Day_end d) (slots_of_day raw_data d)).
  { eapply List.Forall_impl; [|exact (busy_within _ _ Hok)]. simpl. tauto. }
  assert (Hle : Day_start d <= Day_end d) by lia.
  assert (Hcov : forall t,
            covering t (walk (Day_id d) (Day_start d) (Day_end d) (slots_of_day raw_data d)
                        ++ feed_slots_of_day raw_data d)
            = if (Day_start d <=? t) && (t <? Day_end d) then 1%nat else 0%nat).
  { intros t. rewrite <- (walk_covering (Day_id d) _ _ _ t Hl Hle Hstop).
    rewrite !covering_app. f_equal. symmetry. now apply covering_perm. }
  repeat split.
  - intros t Ht. rewrite Hcov.
    destruct (Z.leb_spec (Day_start d) t), (Z.ltb_spec t (Day_end d)); simpl; lia.
  - intros t Ht. rewrite Hcov.
    destruct (Z.leb_spec (Day_start d) t), (Z.ltb_spec t (Day_end d)); simpl; lia.
  - exact (walk_ordered (Day_id d) _ _ _ Hl Hle Hstop).
  - intros f b Hf Hb (t & Htf & Htb).
    specialize (Hcov t). rewrite covering_app in Hcov.
    pose proof (covering_In t f _ Hf Htf).
    pose proof (covering_In t b _ Hb Htb).
    destruct ((Day_start d <=? t) && (t <? Day_end d)); lia.
Qed.

End Feed_to_free_slots.

(** ** The duration filter, entry by entry *)

Section Duration_filter_closed.

Variable strftime : date -> string.
Variable strptime : string -> result date.

Lemma find_suitable_loop_closed (schedule : ScheduleType) (duration : timedelta)
    (es : list (string * (Day * list TimeSlot))) :
  forall acc,
    (forall e, In e es ->
       dict_get (fst e) schedule = Some (snd e)
       /\ exists _date, strptime (fst e) = Ok _date /\ strftime _date = fst e) ->
    List.NoDup (keys es) ->
    (forall k, In k (keys es) -> ~ In k (keys acc)) ->
    find_suitable_loop strftime strptime schedule duration (keys es) acc
    = Ok (acc ++ flat_map (suitable_entry duration) es).
Proof.
  induction es as [|[k [d busy]] rest IH]; intros acc Hes Hnd Hfresh; simpl.
  - now rewrite app_nil_r.
  - apply List.NoDup_cons_iff in Hnd as [Hk Hnd].
    destruct (Hes _ (or_introl eq_refl)) as (Hget & _date & Hparse & Hkey).
    simpl in Hget, Hparse, Hkey.
    unfold find_suitable_step. rewrite Hparse. simpl.
    unfold free_slots_at_date. rewrite Hkey, Hget.
    unfold suitable_entry, free_slots_of_entry. simpl.
    destruct (List.filter _ _) as [|x xs]; simpl.
    + apply IH; [intros e He; apply Hes; now right|exact Hnd|].
      intros k' Hk'. apply Hfresh. now right.
    + rewrite dict_set_fresh by (apply Hfresh; now left).
      rewrite IH; [now rewrite <- app_assoc|intros e He; apply Hes; now right|exact Hnd|].
      intros k' Hk'. unfold keys. rewrite map_app, in_app_iff. simpl.
      intros [Hin|[<-|[]]]; [|contradiction].
      apply (Hfresh k'); [now right|exact Hin].
Qed.

(** X7: for a positive duration and a schedule whose keys are the keys of
    the dates they parse to, the duration filter returns the entries of the
    schedule in their order, each with the free slots of its own day that
    last [duration] or more, without the entries that have none. *)
Theorem find_suitable_slot_entry_by_entry (schedule : ScheduleType)
    (duration : timedelta) :
  dict_ok schedule ->
  0 < duration ->
  (forall key, In key (keys schedule) ->
     exists _date, strptime key = Ok _date /\ strftime _date = key) ->
  find_suitable_slot strftime strptime schedule duration
  = Ok (flat_map (suitable_entry duration) schedule).
Proof.
  intros Hok Hpos Hkeys. unfold find_suitable_slot, total_seconds_nonpos.
  destruct (Z.leb_spec duration 0) as [Hle|_]; [lia|].
  apply (find_suitable_loop_closed schedule duration schedule []).
  - intros [k v] He. simpl. split; [now apply dict_get_ok|].
    apply Hkeys. unfold keys. apply List.in_map_iff. now exists (k, v).
  - exact Hok.
  - intros k _ [].
Qed.

End Duration_filter_closed.

Section Feed_to_suitable_slots.

Variable strftime : date -> string.
Variable strptime : string -> result date.

Lemma run_find_suitable_slot_on_feed (raw_data : RawTimeData) (duration : timedelta) :
  0 < duration ->
  (forall d, In d (days raw_data) ->
     strptime (strftime (Day_date d)) = Ok (Day_date d)) ->
  find_suitable_slot strftime strptime (format_data strftime raw_data) duration
  = Ok (flat_map (suitable_entry duration) (format_data strftime raw_data)).
Proof.
  intros Hpos Hround. unfold find_suitable_slot, total_seconds_nonpos.
  destruct (Z.leb_spec duration 0) as [Hle|_]; [lia|].
  assert (Hok : dict_ok (format_data strftime raw_data))
    by (unfold format_data; apply format_days_ok; constructor).
  pose proof (format_data_entries strftime raw_data) as Hall.
  rewrite List.Forall_forall in Hall.
  apply (find_suitable_loop_closed strftime strptime _ duration
           (format_data strftime raw_data) []).
  - intros [k [d busy]] He. simpl. split; [now apply dict_get_ok|].
    destruct (Hall _ He) as (Hd & Hkey & _). simpl in Hd, Hkey.
    exists (Day_date d). rewrite Hkey. split; [now apply Hround|reflexivity].
  - exact Hok.
  - intros k _ [].
Qed.

(** X8: from the feed to the suitable slots.  When [strptime] reads back the
    key of every day of the feed as the date of that day, the duration
    filter, run with a positive duration on the schedule made by
    [format_data], does not raise: it returns the entries of that schedule
    in their order, each with the free slots of its own day that last
    [duration] or more, without the entries that have none. *)
Theorem feed_suitable_slots (raw_data : RawTimeData) (duration : timedelta) :
  0 < duration ->
  (forall d, In d (days raw_data) ->
     strptime (strftime (Day_date d)) = Ok (Day_date d)) ->
  find_suitable_slot strftime strptime (format_data strftime raw_data) duration
  = Ok (flat_map (suitable_entry duration) (format_data strftime raw_data)).
Proof. apply run_find_suitable_slot_on_feed. Qed.

End Feed_to_suitable_slots.

(** ** Printing *)

Lemma run_io_bind {A B} (m : IO A) (f : A -> IO B) (out out' : stdout) (a : A) :
  m out = (Ok a, out') -> (m ≫= f) out = f a out'.
Proof. intros Hm. unfold mbind, IO_bind. now rewrite Hm. Qed.

Lemma run_io_raise {A B} (m : IO A) (f : A -> IO B) (out out' : stdout) (e : exn) :
  m out = (Raise e, out') -> (m ≫= f) out = (Raise e, out').
Proof. intros Hm. unfold mbind, IO_bind. now rewrite Hm. Qed.

Lemma run_io_for {A} (body : A -> IO unit) (lines : A -> list string) (l : list A) :
  (forall x out, body x out = (Ok tt, out ++ lines x)) ->
  forall out, io_for l body out = (Ok tt, out ++ flat_map lines l).
Proof.
  intros Hbody. induction l as [|x rest IH]; intros out; simpl.
  - now rewrite app_nil_r.
  - rewrite (run_io_bind _ _ _ _ _ (Hbody x out)). rewrite IH.
    now rewrite <- app_assoc.
Qed.

Lemma flat_map_singleton {X Y} (f : X -> Y) (l : list X) :
  flat_map (fun x => [f x]) l = map f l.
Proof. induction l as [|x l IH]; simpl; [reflexivity|now rewrite IH]. Qed.

Lemma run_display_day (skip_empty : bool) (e : string * (Day * list TimeSlot))
    (out : stdout) :
  display_day skip_empty e out = (Ok tt, out ++ lines_of_day skip_empty e).
Proof.
  unfold display_day, lines_of_day.
  destruct (is_empty (snd (snd e)) && skip_empty) eqn:Hskip.
  - apply andb_true_iff in Hskip as [_ ->]. simpl.
    unfold mret, IO_ret. now rewrite app_nil_r.
  - erewrite run_io_bind by reflexivity.
    rewrite (run_io_for _ (fun slot => [slot_line slot])) by reflexivity.
    rewrite <- app_assoc. simpl. now rewrite flat_map_singleton.
Qed.

Lemma run_display_schedule (schedule : ScheduleType) (title : string)
    (skip_empty : bool) (out : stdout) :
  schedule <> [] ->
  display_schedule schedule title skip_empty out
  = (Ok tt, out ++ title_line title
                :: flat_map (lines_of_day skip_empty) schedule ++ [rule_line]).
Proof.
  intros Hne. unfold display_schedule.
  destruct schedule as [|e rest]; [congruence|]. cbn [is_empty].
  erewrite run_io_bind by reflexivity.
  erewrite run_io_bind by (apply run_io_for; apply run_display_day).
  unfold print. rewrite <- !app_assoc. reflexivity.
Qed.


Lemma last_char_app (s t : string) :
  t <> EmptyString -> last_char (s ++ t) = last_char t.
Proof.
  intros Ht. induction s as [|c s IH]; simpl; [reflexivity|].
  rewrite IH. destruct (s ++ t)%string eqn:E; [|reflexivity].
  destruct s; simpl in E; [congruence|discriminate].
Qed.

Lemma last_char_no_slots_line (day : string) :
  last_char (no_slots_line day) = Some "."%char.
Proof. unfold no_slots_line. now rewrite last_char_app. Qed.

Lemma last_char_digit (n : Z) : last_char (digit_of n) <> Some "."%char.
Proof.
  unfold digit_of. simpl. intros [= Heq].
  apply (f_equal nat_of_ascii) in Heq.
  rewrite nat_ascii_embedding in Heq.
  - change (nat_of_ascii "."%char) with 46%nat in Heq. lia.
  - pose proof (Z.mod_pos_bound n 10). lia.
Qed.

Lemma append_nonempty_r (s t : string) :
  t <> EmptyString -> (s ++ t)%string <> EmptyString.
Proof. destruct s; simpl; [tauto|discriminate]. Qed.

Lemma last_char_printed (skip_empty : bool) (schedule : ScheduleType)
    (title : string) :
  Forall (fun line => last_char line <> Some "."%char)
         (title_line title
            :: flat_map (lines_of_day skip_empty) schedule ++ [rule_line]).
Proof.
  assert (Hnl : forall s, last_char (newline ++ s ++ newline) <> Some "."%char).
  { intros s. rewrite !last_char_app; try apply append_nonempty_r; discriminate. }
  constructor.
  - unfold title_line, rule_line. destruct title; apply Hnl.
  - apply Forall_app. split; [|constructor; [apply Hnl|constructor]].
    rewrite List.Forall_forall. intros line Hline.
    apply in_flat_map in Hline as (e & _ & Hline).
    unfold lines_of_day in Hline.
    destruct (is_empty (snd (snd e)) && skip_empty); [contradiction|].
    destruct Hline as [<-|Hline].
    + unfold day_line. rewrite last_char_app; simpl; congruence.
    + apply List.in_map_iff in Hline as (slot & <- & _). unfold slot_line, strftime_HM.
      repeat (rewrite last_char_app
                by (repeat apply append_nonempty_r; unfold digit_of; discriminate)).
      apply last_char_digit.
Qed.

(** X10: [display_schedule] never prints the line
    ["No slots available for this day."]: whatever the schedule, the title
    and [skip_empty], none of the lines it adds to the output is that
    message for a date; the output it found is kept in front. *)
Theorem display_schedule_never_says_no_slots (schedule : ScheduleType)
    (title : string) (skip_empty : bool) (out : stdout) :
  exists added,
    snd (display_schedule schedule title skip_empty out) = out ++ added
    /\ forall line day, In line added -> line <> no_slots_line day.
Proof.
  destruct schedule as [|e rest].
  - exists []. split; [simpl; now rewrite app_nil_r|intros line day []].
  - rewrite run_display_schedule by discriminate. simpl.
    eexists. split; [reflexivity|].
    intros line day Hline ->.
    pose proof (last_char_printed skip_empty (e :: rest) title) as Hall.
    rewrite List.Forall_forall in Hall.
    apply (Hall _ Hline). apply last_char_no_slots_line.
Qed.

(** ** The queries *)

Lemma exception_handler_returns {A B} (func : A -> IO B) (args : A) (out : stdout) :
  (forall e out', func args out = (Raise e, out') -> is_Exception (exn_cls e) = true) ->
  exists r out', exception_handler func args out = (Ok r, out').
Proof.
  intros Hexn. unfold exception_handler.
  destruct (func args out) as [[v|e] out'] eqn:Hrun; [eauto|].
  rewrite (Hexn e out' eq_refl). eauto.
Qed.

Lemma format_days_not_empty (strftime : date -> string) (raw_data : RawTimeData)
    (ds : list Day) :
  forall data, data <> [] -> fold_left (format_day strftime raw_data) ds data <> [].
Proof.
  induction ds as [|d rest IH]; intros data Hne; simpl; [exact Hne|].
  apply IH. unfold format_day. destruct data as [|[k v] data]; simpl; [discriminate|].
  destruct (String.eqb _ k); discriminate.
Qed.

Lemma format_data_empty (strftime : date -> string) (raw_data : RawTimeData) :
  format_data strftime raw_data = [] <-> days raw_data = [].
Proof.
  unfold format_data.
  pose proof (sorted_by_perm date_leb Day_date (days raw_data)) as Hperm.
  destruct (sorted_by date_leb Day_date (days raw_data)) as [|d rest].
  - apply Permutation_nil in Hperm. simpl. tauto.
  - split.
    + intros Hempty. exfalso. revert Hempty. simpl. apply format_days_not_empty.
      unfold format_day. simpl. discriminate.
    + intros Hdays. rewrite Hdays in Hperm. symmetry in Hperm.
      apply Permutation_nil in Hperm. discriminate.
Qed.

Section Services_properties.

Variable strftime : date -> string.
Variable strptime : string -> result date.
Variable strip : string -> string.
Variable repr : string -> string.
Variable request_data : IO RawTimeData.

(** X11: when the data provider answers with a feed that has days,
    [show_busy] prints the schedule made by [format_data] under the title
    [Busy slots], after what the provider printed, and returns that
    schedule; when the feed has no day it prints the one line
    [ERROR: No schedule found.] and returns [None]. *)
Theorem show_busy_on_feed (raw_data : RawTimeData) (out out1 : stdout) :
  request_data out = (Ok raw_data, out1) ->
  (days raw_data <> [] ->
     show_busy strftime request_data tt out
     = (Ok (Some (format_data strftime raw_data)),
        out1 ++ title_line "Busy slots"
             :: flat_map (lines_of_day false) (format_data strftime raw_data)
             ++ [rule_line]))
  /\ (days raw_data = [] ->
        show_busy strftime request_data tt out
        = (Ok None, out1 ++ ["ERROR: No schedule found."%string])).
Proof.
  intros Hreq. unfold show_busy, exception_handler, show_busy_body.
  rewrite (run_io_bind _ _ _ _ _ Hreq). split; intros Hdays.
  - assert (Hne : format_data strftime raw_data <> [])
      by (rewrite format_data_empty; exact Hdays).
    erewrite run_io_bind by (apply run_display_schedule; exact Hne).
    reflexivity.
  - apply (format_data_empty strftime) in Hdays. rewrite Hdays. reflexivity.
Qed.

(** X12: when the date of the argument has no free slot in the schedule of
    the feed, because its key is not there or because the day is booked
    from start to end, [find_free_slots] prints the one line
    [No free slots available on <raw_date>.] and returns [None]: the two
    cases read the same. *)
Theorem find_free_slots_none (raw_date : string) (date_key : date)
    (raw_data : RawTimeData) (out out1 : stdout) :
  strptime (strip raw_date) = Ok date_key ->
  request_data out = (Ok raw_data, out1) ->
  free_slots_at_date strftime (format_data strftime raw_data) date_key = [] ->
  find_free_slots strftime strptime strip repr request_data raw_date out
  = (Ok (Some None),
     out1 ++ [("No free slots available on " ++ raw_date ++ ".")%string]).
Proof.
  intros Hparse Hreq Hfree.
  unfold find_free_slots, exception_handler, find_free_slots_body.
  erewrite run_io_bind by (unfold lift; rewrite Hparse; reflexivity).
  rewrite (run_io_bind _ _ _ _ _ Hreq). rewrite Hfree. reflexivity.
Qed.

(** X13: when the date of the argument has free slots but the argument as
    typed is not a key of the schedule (spaces around it, a month of one
    digit), [find_free_slots] does not show them: the [KeyError] of
    [schedule[raw_date]] is reported as the line [ERROR: <repr of the
    argument>] and the query returns [None]. *)
Theorem find_free_slots_key_error (raw_date : string) (date_key : date)
    (raw_data : RawTimeData) (out out1 : stdout) :
  strptime (strip raw_date) = Ok date_key ->
  request_data out = (Ok raw_data, out1) ->
  free_slots_at_date strftime (format_data strftime raw_data) date_key <> [] ->
  dict_get raw_date (format_data strftime raw_data) = None ->
  find_free_slots strftime strptime strip repr request_data raw_date out
  = (Ok None, out1 ++ [("ERROR: " ++ repr raw_date)%string]).
Proof.
  intros Hparse Hreq Hfree Hkey.
  unfold find_free_slots, exception_handler, find_free_slots_body.
  erewrite run_io_bind by (unfold lift; rewrite Hparse; reflexivity).
  rewrite (run_io_bind _ _ _ _ _ Hreq).
  destruct (free_slots_at_date _ _ _) as [|f fs]; [congruence|].
  cbn [is_empty negb]. rewrite Hkey. reflexivity.
Qed.

(** X14: when the argument is the key of the date it parses to and that
    date has free slots, [find_free_slots] returns them and prints the
    title [Free slots], the key, one line per free slot in order and the
    closing rule. *)
Theorem find_free_slots_found (raw_date : string) (date_key : date)
    (raw_data : RawTimeData) (out out1 : stdout) :
  strptime (strip raw_date) = Ok date_key ->
  strftime date_key = raw_date ->
  request_data out = (Ok raw_data, out1) ->
  let free_slots := free_slots_at_date strftime (format_data strftime raw_data) date_key in
  free_slots <> [] ->
  find_free_slots strftime strptime strip repr request_data raw_date out
  = (Ok (Some (Some free_slots)),
     out1 ++ title_line "Free slots" :: day_line raw_date
          :: map slot_line free_slots ++ [rule_line]).
Proof.
  intros Hparse Hkey Hreq free_slots Hfree. subst free_slots.
  unfold find_free_slots, exception_handler, find_free_slots_body.
  erewrite run_io_bind by (unfold lift; rewrite Hparse; reflexivity).
  rewrite (run_io_bind _ _ _ _ _ Hreq).
  destruct (free_slots_at_date _ _ _) as [|f fs] eqn:Hfs; [congruence|].
  cbn [is_empty negb].
  unfold free_slots_at_date in Hfs. rewrite Hkey in Hfs.
  destruct (dict_get raw_date (format_data strftime raw_data)) as [[d busy]|];
    [|discriminate].
  erewrite run_io_bind by (apply run_display_schedule; discriminate).
  simpl. now rewrite app_nil_r.
Qed.


End Services_properties.

(** ** Reading the arguments *)

Section Parsing_properties.

Variable strptime : string -> result date.
Variable strptime_time : string -> result time.
Variable strip : string -> string.
Variable words : string -> list string.
Variable index_error : exn.

(** X16: a slot that [parse_slot_input] returns has its start before its
    end, and its date is what [strptime] reads in the first word of the
    argument. *)
Theorem parse_slot_input_start_before_end (slot : string) (s : Slot) :
  parse_slot_input strptime strptime_time strip words index_error slot = Ok s ->
  Slot_start s < Slot_end s
  /\ exists _date time,
       words slot = _date :: time /\ strptime (strip _date) = Ok (Slot_date s).
Proof.
  unfold parse_slot_input.
  destruct (parse_slot_words _ _ _ _ _ slot) as [[date [start end_]]|e] eqn:Hwords; simpl.
  2:{ destruct (is_ValueError (exn_cls e)); discriminate. }
  destruct (Z.leb_spec end_ start) as [Hle|Hlt]; [discriminate|].
  intros [= <-]. simpl. split; [exact Hlt|].
  unfold parse_slot_words in Hwords.
  destruct (words slot) as [|_date time]; [discriminate|].
  exists _date, time. split; [reflexivity|].
  destruct (strptime (strip _date)) as [d|e]; [|discriminate]. simpl in Hwords.
  destruct (match match time with [t] => split_char "-" t | _ => time end with
            | [] => Raise index_error | t :: _ => Ok t end) as [first|e];
    [|discriminate].
  simpl in Hwords.
  destruct (strptime_time first) as [st|e]; [|discriminate]. simpl in Hwords.
  destruct (strptime_time _) as [en|e]; [|discriminate]. simpl in Hwords.
  congruence.
Qed.

(** X17: a [ValueError] that [parse_slot_input] raises carries one of two
    messages, the one on the format of the slot or [Start time must be
    before end time]: the messages of the library do not come through. *)
Theorem parse_slot_input_value_errors (slot : string) (e : exn) :
  parse_slot_input strptime strptime_time strip words index_error slot = Raise e ->
  is_ValueError (exn_cls e) = true ->
  e = invalid_slot_format
  \/ e = mk_exn ValueError "Start time must be before end time".
Proof.
  unfold parse_slot_input.
  destruct (parse_slot_words _ _ _ _ _ slot) as [[date [start end_]]|e0]; simpl.
  - destruct (end_ <=? start); [|discriminate]. intros [= <-]. now right.
  - destruct (is_ValueError (exn_cls e0)) eqn:Hcls; intros [= <-]; [now left|].
    congruence.
Qed.

(** X18: an argument of one word that is a date makes [parse_slot_input]
    raise the [IndexError] of [time[0]], which its [except ValueError] does
    not catch, and not the [ValueError] on the format of the slot. *)
Theorem parse_slot_input_date_only (slot _date : string) (d : date) :
  words slot = [_date] ->
  strptime (strip _date) = Ok d ->
  is_ValueError (exn_cls index_error) = false ->
  parse_slot_input strptime strptime_time strip words index_error slot = Raise index_error.
Proof.
  intros Hwords Hdate Hcls.
  unfold parse_slot_input, parse_slot_words.
  rewrite Hwords, Hdate. simpl. now rewrite Hcls.
Qed.

End Parsing_properties.

(** ** The other queries and [main] *)

Lemma suitable_entries_not_empty (duration : timedelta) (schedule : ScheduleType) :
  Forall (fun e => snd (snd e) <> []) (flat_map (suitable_entry duration) schedule).
Proof.
  rewrite List.Forall_forall. intros e He.
  apply in_flat_map in He as (e0 & _ & He). unfold suitable_entry in He.
  destruct (List.filter _ _) as [|x xs]; [contradiction|].
  destruct He as [<-|[]]. simpl. discriminate.
Qed.

Lemma lines_of_days_shown (schedule : ScheduleType) :
  Forall (fun e => snd (snd e) <> []) schedule ->
  flat_map (lines_of_day true) schedule = flat_map (lines_of_day false) schedule.
Proof.
  induction 1 as [|e rest He _ IH]; simpl; [reflexivity|]. rewrite IH. f_equal.
  unfold lines_of_day. destruct (snd (snd e)); [congruence|reflexivity].
Qed.

Section Queries_properties.

Variable strftime : date -> string.
Variable strptime : string -> result date.
Variable strptime_time : string -> result time.
Variable strip : string -> string.
Variable words : string -> list string.
Variable int_of : string -> result Z.
Variable repr : string -> string.
Variable index_error : exn.
Variable overflow_error : exn.
Variable request_data : IO RawTimeData.

(** X19: when the argument parses to a slot and the data provider answers,
    [check_slot] returns whether the slot lies inside one of the free slots
    that [free_slots_at_date] finds for its date in the schedule of the
    feed, and prints one line that says so; a date without free slot, known
    or not, gives [False] and the line on the selected date. *)
Theorem check_slot_answer (raw_slot : string) (slot : Slot)
    (raw_data : RawTimeData) (out out1 : stdout) :
  parse_slot_input strptime strptime_time strip words index_error raw_slot = Ok slot ->
  request_data out = (Ok raw_data, out1) ->
  let free_slots :=
    free_slots_at_date strftime (format_data strftime raw_data) (Slot_date slot) in
  check_slot strftime strptime strptime_time strip words index_error request_data
             raw_slot out
  = (Ok (Some (can_schedule_slot slot free_slots)),
     out1 ++ [if is_empty free_slots
              then "Sorry, no slots are available for the selected date."%string
              else if can_schedule_slot slot free_slots
                   then "The slot can be scheduled at the selected time."%string
                   else ("Sorry, slot " ++ str_of_Slot slot ++ " is unavailable.")%string]).
Proof.
  intros Hparse Hreq free_slots. subst free_slots.
  unfold check_slot, exception_handler, check_slot_body.
  erewrite run_io_bind by (unfold lift; rewrite Hparse; reflexivity).
  rewrite (run_io_bind _ _ _ _ _ Hreq).
  destruct (free_slots_at_date _ _ _) as [|f fs]; [reflexivity|].
  cbn [is_empty]. destruct (can_schedule_slot slot (f :: fs)); reflexivity.
Qed.

(** X20: a duration that parses to zero or less is rejected by [find_slot]
    only after the feed is fetched: the query prints, after what the
    provider printed, the one line [ERROR: Invalid duration. Must be a
    positive timedelta.] and returns [None]. *)
Theorem find_slot_rejects_duration (raw_duration : string) (duration : timedelta)
    (raw_data : RawTimeData) (out out1 : stdout) :
  duration_str_to_timedelta strip int_of overflow_error raw_duration = Ok duration ->
  duration <= 0 ->
  request_data out = (Ok raw_data, out1) ->
  find_slot strftime strptime strip int_of overflow_error request_data raw_duration out
  = (Ok None,
     out1 ++ ["ERROR: Invalid duration. Must be a positive timedelta."%string]).
Proof.
  intros Hparse Hneg Hreq.
  unfold find_slot, exception_handler, find_slot_body.
  erewrite run_io_bind by (unfold lift; rewrite Hparse; reflexivity).
  rewrite (run_io_bind _ _ _ _ _ Hreq).
  unfold find_suitable_slot, total_seconds_nonpos.
  apply Z.leb_le in Hneg. rewrite Hneg. reflexivity.
Qed.

(** X21: with a positive duration, a provider that answers and keys that
    [strptime] reads back, [find_slot] returns the schedule of the feed
    restricted, date by date, to the free slots that last the duration or
    more, and prints every one of its dates (none is skipped, each has a
    slot); when no date is left it prints [No suitable free slots found.]
    and returns [None]. *)
Theorem find_slot_shows (raw_duration : string) (duration : timedelta)
    (raw_data : RawTimeData) (out out1 : stdout) :
  duration_str_to_timedelta strip int_of overflow_error raw_duration = Ok duration ->
  0 < duration ->
  request_data out = (Ok raw_data, out1) ->
  (forall d, In d (days raw_data) ->
     strptime (strftime (Day_date d)) = Ok (Day_date d)) ->
  let suitable_slots :=
    flat_map (suitable_entry duration) (format_data strftime raw_data) in
  find_slot strftime strptime strip int_of overflow_error request_data raw_duration out
  = if is_empty suitable_slots
    then (Ok (Some None), out1 ++ ["No suitable free slots found."%string])
    else (Ok (Some (Some suitable_slots)),
          out1 ++ title_line "Suitable free slots"
               :: flat_map (lines_of_day false) suitable_slots ++ [rule_line]).
Proof.
  intros Hparse Hpos Hreq Hround suitable_slots. subst suitable_slots.
  unfold find_slot, exception_handler, find_slot_body.
  erewrite run_io_bind by (unfold lift; rewrite Hparse; reflexivity).
  rewrite (run_io_bind _ _ _ _ _ Hreq).
  pose proof (run_find_suitable_slot_on_feed strftime strptime raw_data duration
                Hpos Hround) as Hfind.
  erewrite run_io_bind by (unfold lift; rewrite Hfind; reflexivity).
  pose proof (suitable_entries_not_empty duration (format_data strftime raw_data)) as Hshown.
  destruct (flat_map _ _) as [|e rest] eqn:Hflat; [reflexivity|].
  cbn [is_empty negb].
  erewrite run_io_bind by (apply run_display_schedule; discriminate).
  rewrite (lines_of_days_shown _ Hshown). reflexivity.
Qed.


Hypothesis strptime_Exception :
  forall s e, strptime s = Raise e -> is_Exception (exn_cls e) = true.
Hypothesis strptime_time_Exception :
  forall s e, strptime_time s = Raise e -> is_Exception (exn_cls e) = true.
Hypothesis int_of_Exception :
  forall s e, int_of s = Raise e -> is_Exception (exn_cls e) = true.
Hypothesis index_error_Exception : is_Exception (exn_cls index_error) = true.
Hypothesis overflow_error_Exception : is_Exception (exn_cls overflow_error) = true.
Hypothesis request_data_Exception :
  forall out e out', request_data out = (Raise e, out') ->
    is_Exception (exn_cls e) = true.

Lemma parse_slot_input_Exception (slot : string) (e : exn) :
  parse_slot_input strptime strptime_time strip words index_error slot = Raise e ->
  is_Exception (exn_cls e) = true.
Proof.
  unfold parse_slot_input.
  destruct (parse_slot_words _ _ _ _ _ slot) as [[date [start end_]]|e0] eqn:Hwords;
    simpl.
  - destruct (end_ <=? start); [|discriminate]. now intros [= <-].
  - destruct (is_ValueError (exn_cls e0)); intros [= <-]; [reflexivity|].
    unfold parse_slot_words in Hwords.
    destruct (words slot) as [|_date time]; [now injection Hwords as <-|].
    destruct (strptime (strip _date)) as [d|e1] eqn:Hdate; simpl in Hwords.
    2:{ injection Hwords as <-. now apply (strptime_Exception _ _ Hdate). }
    destruct (match match time with [t] => split_char "-" t | _ => time end with
              | [] => Raise index_error | t :: _ => Ok t end) as [first|e1] eqn:Hfirst;
      simpl in Hwords.
    2:{ injection Hwords as <-.
        destruct (match time with [t] => split_char "-" t | _ => time end);
          [injection Hfirst as <-; exact index_error_Exception
          |discriminate Hfirst]. }
    destruct (strptime_time first) as [st|e1] eqn:Hst; simpl in Hwords.
    2:{ injection Hwords as <-. now apply (strptime_time_Exception _ _ Hst). }
    destruct (strptime_time (List.last _ _)) as [en|e1] eqn:Hen; simpl in Hwords;
      [discriminate|].
    injection Hwords as <-. now apply (strptime_time_Exception _ _ Hen).
Qed.

Lemma duration_str_to_timedelta_Exception (duration_str : string) (e : exn) :
  duration_str_to_timedelta strip int_of overflow_error duration_str = Raise e ->
  is_Exception (exn_cls e) = true.
Proof.
  assert (Hint : forall {A} p (k : Z -> result A),
            (forall v, k v = Raise e -> is_Exception (exn_cls e) = true) ->
            (x <- int_of p ;; k x) = Raise e -> is_Exception (exn_cls e) = true).
  { intros A p k Hk. destruct (int_of p) as [v|e0] eqn:Hp; simpl; [apply Hk|].
    intros [= <-]. now apply (int_of_Exception _ _ Hp). }
  unfold duration_str_to_timedelta.
  destruct (split_char ":" (strip duration_str)) as [|p0 [|p1 [|p2 rest]]].
  - now intros [= <-].
  - apply Hint. intros _. now intros [= <-].
  - apply Hint. intros h. apply Hint. intros m. unfold timedelta_hm.
    destruct (_ && _); [discriminate|]. intros [= <-]. exact overflow_error_Exception.
  - apply Hint. intros _. apply Hint. intros _. apply Hint. intros _.
    now intros [= <-].
Qed.

Lemma find_suitable_loop_Exception (schedule : ScheduleType) (duration : timedelta)
    (ks : list string) :
  forall acc e,
    find_suitable_loop strftime strptime schedule duration ks acc = Raise e ->
    is_Exception (exn_cls e) = true.
Proof.
  induction ks as [|key rest IH]; intros acc e; simpl; [discriminate|].
  destruct (find_suitable_step _ _ _ _ _ _) as [acc'|e0] eqn:Hstep; simpl;
    [apply IH|].
  intros [= <-]. unfold find_suitable_step in Hstep.
  destruct (strptime key) as [_date|e1] eqn:Hdate; simpl in Hstep.
  2:{ injection Hstep as <-. now apply (strptime_Exception _ _ Hdate). }
  destruct (List.filter _ _); [discriminate|].
  destruct (dict_get key schedule) as [[d busy]|]; [discriminate|].
  now injection Hstep as <-.
Qed.

Lemma check_slot_returns (raw_slot : string) (out : stdout) :
  exists r out',
    check_slot strftime strptime strptime_time strip words index_error request_data
               raw_slot out = (Ok r, out').
Proof.
  apply exception_handler_returns. intros e out'.
  unfold check_slot_body, mbind, IO_bind, lift.
  destruct (parse_slot_input _ _ _ _ _ raw_slot) as [slot|e0] eqn:Hparse.
  2:{ intros [= <- <-]. now apply (parse_slot_input_Exception _ _ Hparse). }
  destruct (request_data out) as [[raw|e0] out0] eqn:Hrun.
  2:{ intros [= <- <-]. now apply (request_data_Exception _ _ _ Hrun). }
  destruct (free_slots_at_date _ _ _) as [|f fs]; cbn [is_empty]; [discriminate|].
  destruct (can_schedule_slot _ _); discriminate.
Qed.

Lemma find_slot_returns (raw_duration : string) (out : stdout) :
  exists r out',
    find_slot strftime strptime strip int_of overflow_error request_data
              raw_duration out = (Ok r, out').
Proof.
  apply exception_handler_returns. intros e out'.
  unfold find_slot_body, mbind, IO_bind, lift.
  destruct (duration_str_to_timedelta _ _ _ raw_duration) as [duration|e0] eqn:Hparse.
  2:{ intros [= <- <-]. now apply (duration_str_to_timedelta_Exception _ _ Hparse). }
  destruct (request_data out) as [[raw|e0] out0] eqn:Hrun.
  2:{ intros [= <- <-]. now apply (request_data_Exception _ _ _ Hrun). }
  destruct (find_suitable_slot _ _ _ _) as [suitable|e0] eqn:Hfind.
  2:{ intros [= <- <-]. unfold find_suitable_slot in Hfind.
      destruct (total_seconds_nonpos duration); [now injection Hfind as <-|].
      now apply (find_suitable_loop_Exception _ _ _ _ _ Hfind). }
  destruct suitable as [|x xs]; cbn [is_empty negb]; [discriminate|].
  rewrite run_display_schedule by discriminate. discriminate.
Qed.

Lemma show_busy_returns (out : stdout) :
  exists r out', show_busy strftime request_data tt out = (Ok r, out').
Proof.
  apply exception_handler_returns. intros e out'.
  unfold show_busy_body, mbind, IO_bind.
  destruct (request_data out) as [[raw|e0] out0] eqn:Hrun.
  2:{ intros [= <- <-]. now apply (request_data_Exception _ _ _ Hrun). }
  destruct (display_schedule _ _ _ out0) as [[[]|e1] out1] eqn:Hshow;
    [discriminate|].
  intros [= <- <-]. unfold display_schedule in Hshow.
  destruct (is_empty (format_data strftime raw)).
  - now injection Hshow as <- <-.
  - unfold mbind, IO_bind, print in Hshow.
    rewrite run_io_for with (lines := lines_of_day false) in Hshow
      by apply run_display_day.
    discriminate.
Qed.

Lemma find_free_slots_returns (raw_date : string) (out : stdout) :
  exists r out',
    find_free_slots strftime strptime strip repr request_data raw_date out
    = (Ok r, out').
Proof.
  apply exception_handler_returns. intros e out'.
  unfold find_free_slots_body, mbind, IO_bind, lift.
  destruct (strptime (strip raw_date)) as [date_key|e0] eqn:Hdate.
  2:{ intros [= <- <-]. now apply (strptime_Exception _ _ Hdate). }
  destruct (request_data out) as [[raw|e0] out0] eqn:Hrun.
  2:{ intros [= <- <-]. now apply (request_data_Exception _ _ _ Hrun). }
  destruct (free_slots_at_date _ _ _) as [|f fs]; cbn [is_empty negb];
    [discriminate|].
  destruct (dict_get raw_date _) as [[d busy]|]; [|now intros [= <- <-]].
  rewrite run_display_schedule by discriminate. discriminate.
Qed.

(** X15: the four queries do not raise: as long as the exceptions of the
    library calls and of the data provider are instances of [Exception],
    [check_slot], [show_busy], [find_free_slots] and [find_slot] return,
    whatever their argument and whatever the provider does. *)
Theorem queries_do_not_raise (arg : string) (out : stdout) :
  (exists r out',
     check_slot strftime strptime strptime_time strip words index_error request_data
                arg out = (Ok r, out'))
  /\ (exists r out', show_busy strftime request_data tt out = (Ok r, out'))
  /\ (exists r out',
        find_free_slots strftime strptime strip repr request_data arg out
        = (Ok r, out'))
  /\ (exists r out',
        find_slot strftime strptime strip int_of overflow_error request_data
                  arg out = (Ok r, out')).
Proof.
  repeat split.
  - apply check_slot_returns.
  - apply show_busy_returns.
  - apply find_free_slots_returns.
  - apply find_slot_returns.
Qed.

Lemma run_optional {A} (asked : bool) (query : IO A) (out : stdout) :
  (forall out0, exists r out', query out0 = (Ok r, out')) ->
  exists out',
    (if asked then query ;; mret tt else mret tt) out = (Ok tt, out')
    /\ (asked = false -> out' = out).
Proof.
  intros Hquery. destruct asked.
  - destruct (Hquery out) as (r & out' & Hrun).
    exists out'. split; [|discriminate].
    now rewrite (run_io_bind _ _ _ _ _ Hrun).
  - exists out. split; reflexivity.
Qed.

(** X22: with the option [--find-free-slot] given, [main] raises the
    [AttributeError] of [args.find_slot]: [find_free_slots] is not called,
    the query for suitable slots that may follow is not run, and the
    exception is outside the wrapper of the queries.  When the two options
    before it are not given, nothing is printed. *)
Theorem main_find_free_slot_raises (args : Namespace) (out : stdout) :
  given (args_find_free_slot args) = true ->
  exists out',
    main strftime strptime strptime_time strip words int_of repr index_error
         overflow_error request_data args out
    = (Raise (mk_exn AttributeError "'Namespace' object has no attribute 'find_slot'"),
       out')
    /\ (given (args_check_slot args) = false -> args_show_busy args = false ->
        out' = out).
Proof.
  intros Hgiven. unfold main.
  destruct (run_optional (given (args_check_slot args))
              (check_slot strftime strptime strptime_time strip words index_error
                          request_data (text_of (args_check_slot args))) out
              (check_slot_returns _)) as (out1 & Hcheck & Hout1).
  destruct (run_optional (args_show_busy args) (show_busy strftime request_data tt)
              out1 show_busy_returns) as (out2 & Hbusy & Hout2).
  exists out2. split.
  - rewrite (run_io_bind _ _ _ _ _ Hcheck), (run_io_bind _ _ _ _ _ Hbusy).
    rewrite Hgiven. reflexivity.
  - intros Hc Hb. rewrite (Hout2 Hb). now apply Hout1.
Qed.


End Queries_properties.

(** ** The further properties on the feed of the test suite *)

Lemma TEST_DATA_keys :
  List.NoDup (map (fun d => iso_strftime (Day_date d)) (days TEST_DATA)).
Proof. simpl. repeat constructor; simpl; intuition discriminate. Qed.


Lemma format_data_keeps_slots_witness :
  In day_1 (days TEST_DATA)
  /\ "2024-10-10"%string = iso_strftime (Day_date day_1)
  /\ Permutation busy_1 (feed_slots_of_day TEST_DATA day_1)
  /\ Forall (fun s => day_id s = Day_id day_1) busy_1.
Proof.
  apply (format_data_keeps_slots iso_strftime TEST_DATA "2024-10-10" day_1 busy_1).
  left. reflexivity.
Defined.

Lemma format_data_lookup_witness :
  dict_get (iso_strftime (Day_date day_2)) (format_data iso_strftime TEST_DATA)
  = Some (day_2, slots_of_day TEST_DATA day_2).
Proof.
  apply (format_data_lookup iso_strftime TEST_DATA day_2).
  - exact TEST_DATA_keys.
  - right. left. reflexivity.
Defined.

Lemma format_data_days_ascending_witness :
  let schedule_days :=
    map (fun e => fst (snd e)) (format_data iso_strftime TEST_DATA) in
  Permutation schedule_days (days TEST_DATA)
  /\ ForallOrdPairs (fun a b => date_leb (Day_date a) (Day_date b) = true)
                    schedule_days.
Proof.
  apply (format_data_days_ascending iso_strftime TEST_DATA).
  exact TEST_DATA_keys.
Defined.

Lemma feed_free_slots_tile_window_witness :
  let free := free_slots_at_date iso_strftime (format_data iso_strftime TEST_DATA)
                (Day_date day_1) in
  let busy := feed_slots_of_day TEST_DATA day_1 in
  (forall t, Day_start day_1 <= t < Day_end day_1 -> covering t (free ++ busy) = 1%nat)
  /\ (forall t, ~ Day_start day_1 <= t < Day_end day_1 ->
        covering t (free ++ busy) = 0%nat)
  /\ ForallOrdPairs (fun a b => TimeSlot_end a <= TimeSlot_start b) free
  /\ (forall f b, In f free -> In b busy -> ~ overlap f b).
Proof.
  apply (feed_free_slots_tile_window iso_strftime TEST_DATA day_1).
  - exact TEST_DATA_keys.
  - left. reflexivity.
  - reflexivity.
  - repeat constructor.
  - repeat constructor; simpl; unfold hm; lia.
  - repeat constructor.
Defined.

Lemma find_suitable_slot_entry_by_entry_witness :
  find_suitable_slot iso_strftime iso_strptime formatted_schedule (hm 2 0)
  = Ok (flat_map (suitable_entry (hm 2 0)) formatted_schedule).
Proof.
  apply (find_suitable_slot_entry_by_entry iso_strftime iso_strptime
           formatted_schedule (hm 2 0)).
  - unfold dict_ok. simpl. repeat constructor; simpl; intuition discriminate.
  - reflexivity.
  - intros key [<-|[<-|[]]]; eexists; split; reflexivity.
Defined.

Lemma feed_suitable_slots_witness :
  find_suitable_slot iso_strftime iso_strptime (format_data iso_strftime TEST_DATA)
                     (hm 1 0)
  = Ok (flat_map (suitable_entry (hm 1 0)) (format_data iso_strftime TEST_DATA)).
Proof.
  apply (feed_suitable_slots iso_strftime iso_strptime TEST_DATA (hm 1 0)).
  - reflexivity.
  - intros d [<-|[<-|[]]]; reflexivity.
Defined.


Lemma show_busy_on_feed_witness :
  show_busy iso_strftime test_provider tt []
  = (Ok (Some (format_data iso_strftime TEST_DATA)),
     [] ++ title_line "Busy slots"
        :: flat_map (lines_of_day false) (format_data iso_strftime TEST_DATA)
        ++ [rule_line]).
Proof.
  apply (show_busy_on_feed iso_strftime test_provider TEST_DATA [] []).
  - reflexivity.
  - discriminate.
Defined.

Lemma find_free_slots_none_witness :
  find_free_slots iso_strftime iso_strptime space_strip quoted test_provider
                  "2024-12-31" []
  = (Ok (Some None), [] ++ ["No free slots available on 2024-12-31."%string]).
Proof.
  apply (find_free_slots_none iso_strftime iso_strptime space_strip quoted
           test_provider "2024-12-31" (mk_date 2024 12 31) TEST_DATA [] []);
    reflexivity.
Defined.

Lemma find_free_slots_found_witness :
  find_free_slots iso_strftime iso_strptime space_strip quoted test_provider
                  "2024-10-10" []
  = (Ok (Some (Some (free_slots_at_date iso_strftime
                       (format_data iso_strftime TEST_DATA) (mk_date 2024 10 10)))),
     [] ++ title_line "Free slots" :: day_line "2024-10-10"
        :: map slot_line (free_slots_at_date iso_strftime
                            (format_data iso_strftime TEST_DATA) (mk_date 2024 10 10))
        ++ [rule_line]).
Proof.
  apply (find_free_slots_found iso_strftime iso_strptime space_strip quoted
           test_provider "2024-10-10" (mk_date 2024 10 10) TEST_DATA [] []);
    try reflexivity.
  discriminate.
Defined.

Lemma find_free_slots_key_error_witness :
  find_free_slots iso_strftime iso_strptime space_strip quoted test_provider
                  " 2024-10-10" []
  = (Ok None, [] ++ [("ERROR: " ++ quoted " 2024-10-10")%string]).
Proof.
  apply (find_free_slots_key_error iso_strftime iso_strptime space_strip quoted
           test_provider " 2024-10-10" (mk_date 2024 10 10) TEST_DATA [] []);
    try reflexivity.
  discriminate.
Defined.

Lemma parse_slot_input_start_before_end_witness :
  Slot_start (mk_Slot (mk_date 2024 10 10) (hm 14 0) (hm 15 0))
  < Slot_end (mk_Slot (mk_date 2024 10 10) (hm 14 0) (hm 15 0))
  /\ exists _date time,
       space_words "2024-10-10 14:00-15:00" = _date :: time
       /\ iso_strptime (space_strip _date)
          = Ok (Slot_date (mk_Slot (mk_date 2024 10 10) (hm 14 0) (hm 15 0))).
Proof.
  apply (parse_slot_input_start_before_end iso_strptime hm_strptime space_strip
           space_words stand_in_index_error "2024-10-10 14:00-15:00").
  reflexivity.
Defined.

Lemma parse_slot_input_value_errors_witness :
  mk_exn ValueError "Start time must be before end time" = invalid_slot_format
  \/ mk_exn ValueError "Start time must be before end time"
     = mk_exn ValueError "Start time must be before end time".
Proof.
  apply (parse_slot_input_value_errors iso_strptime hm_strptime space_strip
           space_words stand_in_index_error "2024-10-10 14:00");
    reflexivity.
Defined.

Lemma parse_slot_input_date_only_witness :
  parse_slot_input iso_strptime hm_strptime space_strip space_words
                   stand_in_index_error "2024-10-10"
  = Raise stand_in_index_error.
Proof.
  apply (parse_slot_input_date_only iso_strptime hm_strptime space_strip
           space_words stand_in_index_error "2024-10-10" "2024-10-10"
           (mk_date 2024 10 10)); reflexivity.
Defined.

Lemma check_slot_answer_witness :
  let slot := mk_Slot (mk_date 2024 10 10) (hm 14 0) (hm 15 0) in
  let free_slots :=
    free_slots_at_date iso_strftime (format_data iso_strftime TEST_DATA)
                       (Slot_date slot) in
  check_slot iso_strftime iso_strptime hm_strptime space_strip space_words
             stand_in_index_error test_provider "2024-10-10 14:00-15:00" []
  = (Ok (Some (can_schedule_slot slot free_slots)),
     [] ++ [if is_empty free_slots
            then "Sorry, no slots are available for the selected date."%string
            else if can_schedule_slot slot free_slots
                 then "The slot can be scheduled at the selected time."%string
                 else ("Sorry, slot " ++ str_of_Slot slot ++ " is unavailable.")%string]).
Proof.
  apply (check_slot_answer iso_strftime iso_strptime hm_strptime space_strip
           space_words stand_in_index_error test_provider
           "2024-10-10 14:00-15:00"
           (mk_Slot (mk_date 2024 10 10) (hm 14 0) (hm 15 0)) TEST_DATA [] []);
    reflexivity.
Defined.

Lemma find_slot_rejects_duration_witness :
  find_slot iso_strftime iso_strptime space_strip decimal_int
            stand_in_overflow_error test_provider "00:00" []
  = (Ok None,
     [] ++ ["ERROR: Invalid duration. Must be a positive timedelta."%string]).
Proof.
  apply (find_slot_rejects_duration iso_strftime iso_strptime space_strip
           decimal_int stand_in_overflow_error test_provider "00:00" 0
           TEST_DATA [] []); first [reflexivity|lia].
Defined.

Lemma find_slot_shows_witness :
  let suitable_slots :=
    flat_map (suitable_entry (hm 1 0)) (format_data iso_strftime TEST_DATA) in
  find_slot iso_strftime iso_strptime space_strip decimal_int
            stand_in_overflow_error test_provider "01:00" []
  = if is_empty suitable_slots
    then (Ok (Some None), [] ++ ["No suitable free slots found."%string])
    else (Ok (Some (Some suitable_slots)),
          [] ++ title_line "Suitable free slots"
             :: flat_map (lines_of_day false) suitable_slots ++ [rule_line]).
Proof.
  apply (find_slot_shows iso_strftime iso_strptime space_strip decimal_int
           stand_in_overflow_error test_provider "01:00" (hm 1 0) TEST_DATA [] []);
    try reflexivity.
  intros d [<-|[<-|[]]]; reflexivity.
Defined.

Lemma iso_strptime_Exception (s : string) (e : exn) :
  iso_strptime s = Raise e -> is_Exception (exn_cls e) = true.
Proof.
  unfold iso_strptime, no_match.
  repeat match goal with
         | |- context [match ?x with _ => _ end] => destruct x
         end; intros [= <-]; reflexivity.
Qed.

Lemma hm_strptime_Exception (s : string) (e : exn) :
  hm_strptime s = Raise e -> is_Exception (exn_cls e) = true.
Proof.
  unfold hm_strptime.
  repeat match goal with
         | |- context [match ?x with _ => _ end] => destruct x
         end; intros [= <-]; reflexivity.
Qed.

Lemma decimal_int_Exception (s : string) (e : exn) :
  decimal_int s = Raise e -> is_Exception (exn_cls e) = true.
Proof.
  unfold decimal_int.
  repeat match goal with
         | |- context [match ?x with _ => _ end] => destruct x
         end; intros [= <-]; reflexivity.
Qed.

Lemma test_provider_Exception (out : stdout) (e : exn) (out' : stdout) :
  test_provider out = (Raise e, out') -> is_Exception (exn_cls e) = true.
Proof. discriminate. Qed.

Lemma queries_do_not_raise_witness :
  (exists r out',
     check_slot iso_strftime iso_strptime hm_strptime space_strip space_words
                stand_in_index_error test_provider "2024-10-10" [] = (Ok r, out'))
  /\ (exists r out', show_busy iso_strftime test_provider tt [] = (Ok r, out'))
  /\ (exists r out',
        find_free_slots iso_strftime iso_strptime space_strip quoted test_provider
                        "2024-10-10" [] = (Ok r, out'))
  /\ (exists r out',
        find_slot iso_strftime iso_strptime space_strip decimal_int
                  stand_in_overflow_error test_provider "2024-10-10" []
        = (Ok r, out')).
Proof.
  apply (queries_do_not_raise iso_strftime iso_strptime hm_strptime space_strip
           space_words decimal_int quoted stand_in_index_error
           stand_in_overflow_error test_provider);
    first [exact iso_strptime_Exception | exact hm_strptime_Exception
          | exact decimal_int_Exception | exact test_provider_Exception
          | reflexivity].
Defined.

Lemma main_find_free_slot_raises_witness :
  exists out',
    main iso_strftime iso_strptime hm_strptime space_strip space_words decimal_int
         quoted stand_in_index_error stand_in_overflow_error test_provider
         (mk_Namespace None false (Some "2024-10-10"%string) (Some "01:00"%string)) []
    = (Raise (mk_exn AttributeError "'Namespace' object has no attribute 'find_slot'"),
       out')
    /\ (given None = false -> false = false -> out' = []).
Proof.
  apply (main_find_free_slot_raises iso_strftime iso_strptime hm_strptime
           space_strip space_words decimal_int quoted stand_in_index_error
           stand_in_overflow_error test_provider);
    first [exact iso_strptime_Exception | exact hm_strptime_Exception
          | exact decimal_int_Exception | exact test_provider_Exception
          | reflexivity].
Defined.

